(** * Shallow embedding of the NeoPulse trading core (risk sentinel,
    risk manager, execution engine, strategy base, circuit breaker,
    event bus, market feed) and the verification of its specification. *)

From Stdlib Require Import ZArith QArith Qround String Ascii List Bool Lia.
Import ListNotations.

(* ------------------------------------------------------------------ *)
(** ** Python exceptions and a state + exception monad                  *)
(* ------------------------------------------------------------------ *)

(** The exceptions the modelled code can raise.  [PyException] is a
    plain [Exception(msg)] (the circuit breaker raises those). *)
Inductive exn : Type :=
| AttributeError (obj attr : string)
| TypeError (msg : string)
| BrokerError (msg : string)
| PyException (msg : string)
| QueueFull
| QueueEmpty
| ConnectionError (msg : string).

Inductive Exc (A : Type) : Type :=
| Ok : A -> Exc A
| Raise : exn -> Exc A.
Arguments Ok {A} _.
Arguments Raise {A} _.

(** Python mutates objects in place: a mutation made before an exception
    is raised stays visible after it.  So the state is threaded through
    the exceptional outcome as well. *)
Definition M (S A : Type) : Type := S -> Exc A * S.

Definition ret {S A} (a : A) : M S A := fun s => (Ok a, s).
Definition raise {S A} (e : exn) : M S A := fun s => (Raise e, s).
Definition bind {S A B} (m : M S A) (k : A -> M S B) : M S B :=
  fun s => match m s with
           | (Ok a, s') => k a s'
           | (Raise e, s') => (Raise e, s')
           end.
Definition get {S} : M S S := fun s => (Ok s, s).
Definition put {S} (s : S) : M S unit := fun _ => (Ok tt, s).
Definition modify {S} (f : S -> S) : M S unit := fun s => (Ok tt, f s).
(** [try: m  except Exception as e: h e] *)
Definition try_except {S A} (m : M S A) (h : exn -> M S A) : M S A :=
  fun s => match m s with
           | (Ok a, s') => (Ok a, s')
           | (Raise e, s') => h e s'
           end.

Notation "x <- m ;; k" := (bind m (fun x => k))
  (at level 61, m at next level, right associativity).
Notation "m ;;; k" := (bind m (fun _ => k))
  (at level 61, right associativity).

(** Running a computation of a component inside a larger state. *)
Definition lift {S T A} (getc : T -> S) (setc : S -> T -> T) (m : M S A) : M T A :=
  fun t => let (r, s') := m (getc t) in (r, setc s' t).

(* ------------------------------------------------------------------ *)
(** ** Risk configuration objects                                       *)
(* ------------------------------------------------------------------ *)

(** Two pydantic classes named [RiskConfig] exist in the repository:
    [app.schemas.common.RiskConfig] (the one [RiskManager] builds) and
    [app.risk.models.RiskConfig] (the one [RiskSentinel] is annotated
    with).  They have different fields; reading a field a class does
    not define raises [AttributeError]. *)
Record CommonRiskConfig := {
  c_max_daily_loss : Q;
  c_max_concurrent_trades : Z;
  c_kill_switch_active : bool;
  c_risk_per_trade_pct : Q }.

Record ModelsRiskConfig := {
  m_max_daily_loss : Q;
  m_max_capital_per_trade : Q;
  m_max_open_trades : Z;
  m_max_drawdown_pct : Q;
  m_kill_switch_active : bool }.

Inductive RiskConfig :=
| SchemasCommon (c : CommonRiskConfig)
| RiskModels (c : ModelsRiskConfig).

Definition cfg_kill_switch_active (c : RiskConfig) : bool :=
  match c with
  | SchemasCommon c => c_kill_switch_active c
  | RiskModels c => m_kill_switch_active c
  end.

Definition cfg_max_daily_loss (c : RiskConfig) : Q :=
  match c with
  | SchemasCommon c => c_max_daily_loss c
  | RiskModels c => m_max_daily_loss c
  end.

Definition cfg_max_open_trades (c : RiskConfig) : Exc Z :=
  match c with
  | SchemasCommon _ => Raise (AttributeError "RiskConfig" "max_open_trades")
  | RiskModels c => Ok (m_max_open_trades c)
  end.

Definition cfg_max_capital_per_trade (c : RiskConfig) : Exc Q :=
  match c with
  | SchemasCommon _ => Raise (AttributeError "RiskConfig" "max_capital_per_trade")
  | RiskModels c => Ok (m_max_capital_per_trade c)
  end.

Definition cfg_set_kill_switch (b : bool) (c : RiskConfig) : RiskConfig :=
  match c with
  | SchemasCommon c =>
      SchemasCommon {| c_max_daily_loss := c_max_daily_loss c;
                       c_max_concurrent_trades := c_max_concurrent_trades c;
                       c_kill_switch_active := b;
                       c_risk_per_trade_pct := c_risk_per_trade_pct c |}
  | RiskModels c =>
      RiskModels {| m_max_daily_loss := m_max_daily_loss c;
                    m_max_capital_per_trade := m_max_capital_per_trade c;
                    m_max_open_trades := m_max_open_trades c;
                    m_max_drawdown_pct := m_max_drawdown_pct c;
                    m_kill_switch_active := b |}
  end.

Definition liftE {S A} (r : Exc A) : M S A :=
  match r with Ok a => ret a | Raise e => raise e end.

(* ------------------------------------------------------------------ *)
(** ** app/risk/sentinel.py: RiskSentinel                               *)
(* ------------------------------------------------------------------ *)

Record RiskSentinel := {
  config : RiskConfig;
  current_pnl : Q;
  open_trades : Z;
  trades_today : Z;
  peak_equity : Q }.

Definition with_config (c : RiskConfig) (s : RiskSentinel) : RiskSentinel :=
  {| config := c; current_pnl := current_pnl s; open_trades := open_trades s;
     trades_today := trades_today s; peak_equity := peak_equity s |}.
Definition with_counts (o t : Z) (s : RiskSentinel) : RiskSentinel :=
  {| config := config s; current_pnl := current_pnl s; open_trades := o;
     trades_today := t; peak_equity := peak_equity s |}.
Definition with_pnl (p pk : Q) (s : RiskSentinel) : RiskSentinel :=
  {| config := config s; current_pnl := p; open_trades := open_trades s;
     trades_today := trades_today s; peak_equity := pk |}.

(** [check_pre_trade(symbol, quantity, value)]; the lock is implicit in
    the sequential model (no [await] inside the critical section). *)
Definition check_pre_trade (symbol : string) (quantity : Z) (value : Q)
  : M RiskSentinel bool :=
  s <- get ;;
  if cfg_kill_switch_active (config s) then ret false
  else if Qle_bool (current_pnl s) (- cfg_max_daily_loss (config s)) then ret false
  else
    mot <- liftE (cfg_max_open_trades (config s)) ;;
    if (mot <=? open_trades s)%Z then ret false
    else
      mcap <- liftE (cfg_max_capital_per_trade (config s)) ;;
      if Qle_bool value mcap then
        put (with_counts (open_trades s + 1) (trades_today s + 1) s) ;;; ret true
      else ret false.

Definition update_post_trade_close (pnl : Q) : M RiskSentinel unit :=
  s <- get ;;
  let p := current_pnl s + pnl in
  let s1 := with_counts (Z.max 0 (open_trades s - 1)) (trades_today s)
              (with_pnl p (if Qle_bool p (peak_equity s) then peak_equity s else p) s) in
  if Qle_bool p (- cfg_max_daily_loss (config s1))
  then put (with_config (cfg_set_kill_switch true (config s1)) s1)
  else put s1.

Definition rollback_slot : M RiskSentinel unit :=
  modify (fun s => with_counts (Z.max 0 (open_trades s - 1))
                               (Z.max 0 (trades_today s - 1)) s).

Definition reset_daily : M RiskSentinel unit :=
  modify (fun s =>
    with_config (cfg_set_kill_switch false (config s))
      {| config := config s; current_pnl := 0; open_trades := open_trades s;
         trades_today := 0; peak_equity := 0 |}).

(** [sync_state]: the broker answer is an input.  [None] stands for the
    broker not being logged in or the call failing (both are caught and
    leave [open_trades] unchanged); [Some qtys] lists the [netQty] of the
    returned position rows.  The database step is a [pass]. *)
Definition sync_state (positions : option (list Z)) : M RiskSentinel unit :=
  match positions with
  | None => ret tt
  | Some qs =>
      modify (fun s => with_counts (Z.of_nat (length (filter (fun q => negb (q =? 0)%Z) qs)))
                                   (trades_today s) s)
  end.

(** Attribute lookup of the sentinel's argument-less coroutine methods.
    The class defines no [on_execution_failure]: looking it up on the
    instance raises [AttributeError] (its slot release is [rollback_slot]). *)
Definition sentinel_getattr (name : string) : option (M RiskSentinel unit) :=
  if String.eqb name "rollback_slot" then Some rollback_slot
  else if String.eqb name "reset_daily" then Some reset_daily
  else None.

(* ------------------------------------------------------------------ *)
(** ** Python call binding by keyword                                   *)
(* ------------------------------------------------------------------ *)

(** A parameter: its name and whether it has a default value. *)
Definition Param : Type := (string * bool)%type.

(** Binding keyword arguments to a function's parameters: an unknown
    keyword raises [TypeError] first, then a missing required one. *)
Definition bind_kwargs (params : list Param) (kws : list string) : Exc unit :=
  match find (fun k => negb (existsb (fun p => String.eqb (fst p) k) params)) kws with
  | Some k => Raise (TypeError ("got an unexpected keyword argument '" ++ k ++ "'"))
  | None =>
      match find (fun p => negb (snd p) && negb (existsb (String.eqb (fst p)) kws)) params with
      | Some p => Raise (TypeError ("missing 1 required positional argument: '" ++ fst p ++ "'"))
      | None => Ok tt
      end
  end.

(** Argument values of the modelled calls. *)
Inductive PyVal := VQ (q : Q) | VZ (z : Z).

Definition kw_lookup {V} (k : string) (kw : list (string * V)) : option V :=
  match find (fun p => String.eqb (fst p) k) kw with
  | Some (_, v) => Some v
  | None => None
  end.
Definition as_Q (v : PyVal) : Q := match v with VQ q => q | VZ z => inject_Z z end.
Definition as_Z (v : PyVal) : Z := match v with VZ z => z | VQ q => Qfloor q end.

(* ------------------------------------------------------------------ *)
(** ** app/risk/sizer.py: PositionSizer                                 *)
(* ------------------------------------------------------------------ *)

Record PositionConfig := {
  method : string;
  pc_risk_per_trade_pct : Q;
  pc_leverage : Q }.

Definition PositionSizer_init_params : list Param := [("config", false)]%string.

Definition calculate_qty_params : list Param :=
  [("capital", false); ("entry_price", false); ("sl_price", false);
   ("lot_size", true); ("consecutive_losses", true); ("consecutive_wins", true)]%string.

Definition qabs (q : Q) : Q := if Qle_bool 0 q then q else - q.
Definition qmin (a b : Q) : Q := if Qle_bool a b then a else b.

(** Division by zero raises in Python. *)
Definition qdiv (a b : Q) : Exc Q :=
  if Qeq_bool b 0 then Raise (PyException "ZeroDivisionError") else Ok (a / b).

(** The body of [calculate_qty] once its arguments are bound. *)
Definition calculate_qty_body (cfg : PositionConfig) (capital entry_price sl_price : Q)
    (lot_size0 consecutive_losses consecutive_wins : Z) : Exc Z :=
  if Qle_bool entry_price 0 || Qle_bool sl_price 0 then Ok 0%Z
  else
    let lot_size := Z.max 1 lot_size0 in
    let lot := inject_Z lot_size in
    if String.eqb (method cfg) "FIXED_RISK" then
      let risk_per_share := qabs (entry_price - sl_price) in
      if Qeq_bool risk_per_share 0 then Ok 0%Z
      else
        let risk_amount := capital * pc_risk_per_trade_pct cfg in
        let raw_qty := risk_amount / risk_per_share in
        let max_buying_power := capital * pc_leverage cfg in
        let max_qty_by_capital := max_buying_power / entry_price in
        let final_raw_qty := qmin raw_qty max_qty_by_capital in
        Ok (Qfloor (final_raw_qty / lot) * lot_size)%Z
    else if String.eqb (method cfg) "FIXED_CAPITAL" then
      let allocation := capital * (1 # 4) in
      Ok (Qfloor (allocation / entry_price / lot) * lot_size)%Z
    else if String.eqb (method cfg) "MARTINGALE" then
      let multiplier := Z.min (2 ^ consecutive_losses) 4 in
      let risk_amount := capital * pc_risk_per_trade_pct cfg * inject_Z multiplier in
      match qdiv risk_amount (qabs (entry_price - sl_price)) with
      | Ok raw_qty => Ok (Qfloor (raw_qty / lot) * lot_size)%Z
      | Raise e => Raise e
      end
    else if String.eqb (method cfg) "ANTI_MARTINGALE" then
      let bonus_risk := qmin (inject_Z consecutive_wins * (5 # 1000)) (3 # 100) in
      let risk_amount := capital * (pc_risk_per_trade_pct cfg + bonus_risk) in
      match qdiv risk_amount (qabs (entry_price - sl_price)) with
      | Ok raw_qty => Ok (Qfloor (raw_qty / lot) * lot_size)%Z
      | Raise e => Raise e
      end
    else Ok 0%Z.

(** [PositionSizer.calculate_qty] called with keyword arguments: bind, then run the body. *)
Definition calculate_qty (cfg : PositionConfig) (kw : list (string * PyVal)) : Exc Z :=
  match bind_kwargs calculate_qty_params (map fst kw) with
  | Raise e => Raise e
  | Ok _ =>
      let arg k d := match kw_lookup k kw with Some v => v | None => d end in
      calculate_qty_body cfg (as_Q (arg "capital"%string (VZ 0))) (as_Q (arg "entry_price"%string (VZ 0)))
        (as_Q (arg "sl_price"%string (VZ 0))) (as_Z (arg "lot_size"%string (VZ 1)))
        (as_Z (arg "consecutive_losses"%string (VZ 0))) (as_Z (arg "consecutive_wins"%string (VZ 0)))
  end.

(** The constructor [PositionSizer] with keyword arguments: [__init__(self, config)]. *)
Definition PositionSizer_new (kw : list (string * PositionConfig)) : Exc PositionConfig :=
  match bind_kwargs PositionSizer_init_params (map fst kw) with
  | Raise e => Raise e
  | Ok _ => match kw_lookup "config"%string kw with
            | Some c => Ok c
            | None => Raise (TypeError "config")
            end
  end.

(* ------------------------------------------------------------------ *)
(** ** app/risk/manager.py: RiskManager                                 *)
(* ------------------------------------------------------------------ *)

(** [self.config] and [self.sentinel.config] are one object: the model
    keeps it once, inside the sentinel. *)
Record RiskManager := {
  sentinel : RiskSentinel;
  sizer : PositionConfig;
  is_initialized : bool;
  leverage : Q;
  total_allocated_capital : Q }.

Definition default_risk_config : RiskConfig :=
  SchemasCommon {| c_max_daily_loss := 1000; c_max_concurrent_trades := 3;
                   c_kill_switch_active := false; c_risk_per_trade_pct := 1 # 100 |}.

Definition RiskSentinel_new (c : RiskConfig) : RiskSentinel :=
  {| config := c; current_pnl := 0; open_trades := 0; trades_today := 0; peak_equity := 0 |}.

(** [RiskManager.__init__]: [self.sizer = PositionSizer()] is a call
    without arguments. *)
Definition RiskManager_init : Exc RiskManager :=
  let cfg := default_risk_config in
  let sen := RiskSentinel_new cfg in
  match PositionSizer_new [] with
  | Raise e => Raise e
  | Ok sz => Ok {| sentinel := sen; sizer := sz; is_initialized := false;
                   leverage := 1; total_allocated_capital := 100000 |}
  end.

Definition cfg_max_concurrent_trades (c : RiskConfig) : Exc Z :=
  match c with
  | SchemasCommon c => Ok (c_max_concurrent_trades c)
  | RiskModels _ => Raise (AttributeError "RiskConfig" "max_concurrent_trades")
  end.

Definition cfg_risk_per_trade_pct (c : RiskConfig) : Exc Q :=
  match c with
  | SchemasCommon c => Ok (c_risk_per_trade_pct c)
  | RiskModels _ => Raise (AttributeError "RiskConfig" "risk_per_trade_pct")
  end.

Definition set_sentinel (s : RiskSentinel) (r : RiskManager) : RiskManager :=
  {| sentinel := s; sizer := sizer r; is_initialized := is_initialized r;
     leverage := leverage r; total_allocated_capital := total_allocated_capital r |}.

Definition on_sentinel {A} (m : M RiskSentinel A) : M RiskManager A :=
  lift sentinel set_sentinel m.

Definition can_trade (symbol : string) (qty : Z) (price : Q) : M RiskManager bool :=
  r <- get ;;
  if negb (is_initialized r) then ret false
  else on_sentinel (check_pre_trade symbol qty (inject_Z qty * price)).

Definition on_execution_failure : M RiskManager unit :=
  match sentinel_getattr "on_execution_failure" with
  | Some m => on_sentinel m
  | None => raise (AttributeError "RiskSentinel" "on_execution_failure")
  end.

Definition on_trade_close (pnl : Q) : M RiskManager unit :=
  on_sentinel (update_post_trade_close pnl).

(** An instrument dict of the master data: its optional [lot_size] and
    [freeze_qty] keys. *)
Record InstData := { inst_lot_size : option Z; inst_freeze_qty : option Z }.

(** [master_data.get_data(symbol)]: [MasterDataManager]
    (app/data/master.py) defines [get_token] and [get_symbol] but no
    [get_data], so the attribute lookup raises [AttributeError]. *)
Definition master_get_data (symbol : string) : Exc (option InstData) :=
  Raise (AttributeError "MasterDataManager" "get_data").

(** [calculate_size]: [net] is the [net] field of the broker limits
    ([None] when the broker is not logged in or the call fails). *)
Definition calculate_size (net : option Q)
    (symbol : string) (entry sl confidence : Q) : M RiskManager Z :=
  r <- get ;;
  let available_cash :=
    match net with
    | Some v => if Qeq_bool v 0 then total_allocated_capital r else v
    | None => total_allocated_capital r
    end in
  mct <- liftE (cfg_max_concurrent_trades (config (sentinel r))) ;;
  let open_slots := Z.max 0 (mct - open_trades (sentinel r)) in
  inst_data <- liftE (master_get_data symbol) ;;
  let lot_size := match inst_data with
                  | Some d => match inst_lot_size d with Some l => l | None => 1%Z end
                  | None => 1%Z
                  end in
  rpt <- liftE (cfg_risk_per_trade_pct (config (sentinel r))) ;;
  liftE (calculate_qty (sizer r)
    [("total_capital", VQ (total_allocated_capital r));
     ("available_capital", VQ available_cash);
     ("max_slots", VZ mct); ("open_slots", VZ open_slots);
     ("entry_price", VQ entry); ("sl_price", VQ sl); ("lot_size", VZ lot_size);
     ("confidence", VQ confidence); ("risk_per_trade_pct", VQ rpt);
     ("leverage", VQ (leverage r))]%string).

(* ------------------------------------------------------------------ *)
(** ** app/schemas/execution.py and the broker interface                *)
(* ------------------------------------------------------------------ *)

Inductive OrderStatus := COMPLETE | REJECTED | CANCELLED | PARTIAL | FAILED.

Definition OrderStatus_eqb (a b : OrderStatus) : bool :=
  match a, b with
  | COMPLETE, COMPLETE | REJECTED, REJECTED | CANCELLED, CANCELLED
  | PARTIAL, PARTIAL | FAILED, FAILED => true
  | _, _ => false
  end.

Record OrderResponse := {
  order_id : string;
  status : OrderStatus;
  filled_qty : Z;
  average_price : Q;
  error_message : option string }.

(** The parameters handed to [broker.place_order]. *)
Record OrderParams := {
  op_symbol : string;
  op_token : string;
  op_side : string;
  op_qty : Z;
  op_price : Q;
  op_order_type : string;
  op_tag : string }.

(** A broker answer: a dict with its optional [stat], [nOrdNo] and
    [errMsg] keys, or an exception raised by the call. *)
Inductive BrokerResp :=
| BrokerDict (stat nOrdNo errMsg : option string)
| BrokerRaises (msg : string).

(* ------------------------------------------------------------------ *)
(** ** The world the execution engine and a strategy act on             *)
(* ------------------------------------------------------------------ *)

Record Strategy := {
  s_symbol : string;
  s_token : string;
  position : Z;
  avg_price : Q;
  last_trade_time : option Z }.

(** Time is wall-clock microseconds ([datetime.now()]); [broker_script]
    holds the broker's next answers, [sent] records every [place_order]
    call in order. *)
Record World := {
  rm : RiskManager;
  strat : Strategy;
  broker_net : option Q;
  broker_script : list BrokerResp;
  sent : list OrderParams;
  clock : Z }.

Definition set_rm (r : RiskManager) (w : World) : World :=
  {| rm := r; strat := strat w; broker_net := broker_net w;
     broker_script := broker_script w; sent := sent w; clock := clock w |}.
Definition set_strat (s : Strategy) (w : World) : World :=
  {| rm := rm w; strat := s; broker_net := broker_net w;
     broker_script := broker_script w; sent := sent w; clock := clock w |}.
Definition set_broker (bs : list BrokerResp) (snt : list OrderParams) (w : World) : World :=
  {| rm := rm w; strat := strat w; broker_net := broker_net w;
     broker_script := bs; sent := snt; clock := clock w |}.
Definition advance_clock (us : Z) (w : World) : World :=
  {| rm := rm w; strat := strat w; broker_net := broker_net w;
     broker_script := broker_script w; sent := sent w; clock := clock w + us |}.

Definition on_risk {A} (m : M RiskManager A) : M World A := lift rm set_rm m.

(** [await asyncio.sleep(sec)] *)
Definition sleep_us (us : Z) : M World unit := modify (advance_clock us).

(** [await self.broker.place_order(params)] *)
Definition place_order (p : OrderParams) : M World BrokerResp :=
  w <- get ;;
  match broker_script w with
  | [] => put (set_broker [] (sent w ++ [p]) w) ;;; raise (BrokerError "no answer")
  | BrokerRaises msg :: rest => put (set_broker rest (sent w ++ [p]) w) ;;; raise (BrokerError msg)
  | r :: rest => put (set_broker rest (sent w ++ [p]) w) ;;; ret r
  end.

(** Decimal rendering of an integer (f-string interpolation). *)
Fixpoint digits (fuel : nat) (n : Z) (acc : string) : string :=
  match fuel with
  | O => acc
  | S f =>
      let acc' := String (ascii_of_nat (48 + Z.to_nat (n mod 10))) acc in
      if (n <? 10)%Z then acc' else digits f (n / 10) acc'
  end.
Definition str_of_Z (n : Z) : string :=
  if (n <? 0)%Z then ("-" ++ digits 40 (- n) "")%string else digits 40 n "".

(** [str(e)] of a raised exception. *)
Definition str_exn (e : exn) : string :=
  match e with
  | AttributeError o a => ("'" ++ o ++ "' object has no attribute '" ++ a ++ "'")%string
  | TypeError m | BrokerError m | PyException m | ConnectionError m => m
  | QueueFull | QueueEmpty => ""
  end.

Definition opt_default (d : string) (o : option string) : string :=
  match o with Some v => v | None => d end.

(* ------------------------------------------------------------------ *)
(** ** app/execution/engine.py: ExecutionEngine                         *)
(* ------------------------------------------------------------------ *)

(** [str.upper()] on ASCII letters; other characters are kept (no
    non-ASCII character upper-cases to [B], [U] or [Y], so comparing the
    result with ["BUY"] agrees with Python on every string). *)
Definition ascii_upper (c : ascii) : ascii :=
  let n := nat_of_ascii c in
  if (97 <=? n)%nat && (n <=? 122)%nat then ascii_of_nat (n - 32) else c.

Fixpoint str_upper (s : string) : string :=
  match s with
  | EmptyString => EmptyString
  | String c rest => String (ascii_upper c) (str_upper rest)
  end.

(** [_send_single_order]; the ledger writes swallow their own errors and
    do not influence the outcome, so they are left out. *)
Definition send_single_order (symbol token side : string) (qty : Z) (price : Q)
    (tag : string) : M World OrderResponse :=
  let otype := if Qle_bool price 0 then "MKT"%string else "L"%string in
  let params := {| op_symbol := symbol; op_token := token;
                   op_side := if String.eqb (str_upper side) "BUY" then "B"%string else "S"%string;
                   op_qty := qty; op_price := price; op_order_type := otype;
                   op_tag := tag |} in
  try_except
    (raw <- place_order params ;;
     match raw with
     | BrokerDict stat nOrdNo errMsg =>
         let is_success :=
           match stat with Some st => String.eqb st "Ok" | None => false end
           || match nOrdNo with Some _ => true | None => false end in
         if is_success then
           ret {| order_id := opt_default "UNKNOWN" nOrdNo; status := COMPLETE;
                  filled_qty := qty; average_price := price; error_message := None |}
         else
           let msg := opt_default "Unknown Broker Error" errMsg in
           on_risk on_execution_failure ;;;
           ret {| order_id := "NA"; status := REJECTED; filled_qty := 0;
                  average_price := 0; error_message := Some msg |}
     | BrokerRaises msg => raise (BrokerError msg)
     end)
    (fun e =>
       on_risk on_execution_failure ;;;
       ret {| order_id := "NA"; status := FAILED; filled_qty := 0;
              average_price := 0; error_message := Some (str_exn e) |}).

(** The [for i in range(num_legs)] loop of [_execute_iceberg]; it returns
    [filled_so_far], [order_ids] and [errors]. *)
Fixpoint iceberg_legs (legs : nat) (i : Z) (symbol token side : string) (price : Q)
    (freeze_limit : Z) (tag : string) (remaining filled : Z)
    (ids errors : list string) : M World (Z * list string * list string) :=
  match legs with
  | O => ret (filled, ids, errors)
  | S n =>
      let leg_qty := Z.min remaining freeze_limit in
      resp <- send_single_order symbol token side leg_qty price
                (tag ++ "_ICE_" ++ str_of_Z (i + 1))%string ;;
      if OrderStatus_eqb (status resp) COMPLETE then
        sleep_us 200000 ;;;
        iceberg_legs n (i + 1) symbol token side price freeze_limit tag
          (remaining - leg_qty) (filled + leg_qty) (ids ++ [order_id resp]) errors
      else
        ret (filled, ids,
             errors ++ [("Leg " ++ str_of_Z (i + 1) ++ ": " ++
                         opt_default "None" (error_message resp))%string])
  end.

Definition execute_iceberg (symbol token side : string) (total_qty : Z) (price : Q)
    (freeze_limit : Z) (tag : string) : M World OrderResponse :=
  q <- liftE (qdiv (inject_Z total_qty) (inject_Z freeze_limit)) ;;
  let num_legs := Qceiling q in
  r <- iceberg_legs (Z.to_nat num_legs) 0 symbol token side price freeze_limit tag
         total_qty 0 [] [] ;;
  let '(filled_so_far, order_ids, errors) := r in
  let final_status :=
    if (filled_so_far =? 0)%Z then FAILED
    else if (filled_so_far =? total_qty)%Z then COMPLETE else PARTIAL in
  ret {| order_id := String.concat "," order_ids; status := final_status;
         filled_qty := filled_so_far; average_price := price;
         error_message := match errors with
                          | [] => None
                          | _ => Some (String.concat " | " errors)
                          end |}.

Definition execute_order (symbol token side : string) (quantity : Z) (price : Q)
    (tag : string) : M World (option OrderResponse) :=
  allowed <- on_risk (can_trade symbol quantity price) ;;
  if negb allowed then ret None
  else
    inst_data <- liftE (master_get_data symbol) ;;
    let freeze_qty := match inst_data with
                      | Some d => match inst_freeze_qty d with Some f => f | None => 1800%Z end
                      | None => 1800%Z
                      end in
    if (freeze_qty <? quantity)%Z then
      r <- execute_iceberg symbol token side quantity price freeze_qty tag ;; ret (Some r)
    else
      r <- send_single_order symbol token side quantity price tag ;; ret (Some r).

(* ------------------------------------------------------------------ *)
(** ** app/strategy/base.py: BaseStrategy order paths                   *)
(* ------------------------------------------------------------------ *)

(** [timedelta.seconds] of a difference given in microseconds: the
    seconds component of the normalised timedelta (days dropped). *)
Definition td_seconds (delta_us : Z) : Z := (delta_us mod 86400000000) / 1000000.

Definition update_strat (f : Strategy -> Strategy) : M World unit :=
  modify (fun w => set_strat (f (strat w)) w).

Definition fill_position (side : string) (filled : Z) (now : Z) (s : Strategy) : Strategy :=
  {| s_symbol := s_symbol s; s_token := s_token s;
     position := if String.eqb side "BUY" then position s + filled else position s - filled;
     avg_price := avg_price s; last_trade_time := Some now |}.

(** [BaseStrategy._execute] *)
Definition strategy_execute (side : string) (qty : Z) (price : Q) (tag : string)
  : M World (option OrderResponse) :=
  w <- get ;;
  let debounced := match last_trade_time (strat w) with
                   | Some t => (td_seconds (clock w - t) <? 1)%Z
                   | None => false
                   end in
  if debounced then ret None
  else
    response <- execute_order (s_symbol (strat w)) (s_token (strat w)) side qty price tag ;;
    match response with
    | Some r =>
        if OrderStatus_eqb (status r) COMPLETE || OrderStatus_eqb (status r) PARTIAL then
          w' <- get ;;
          update_strat (fill_position side (filled_qty r) (clock w')) ;;; ret response
        else ret response
    | None => ret response
    end.

(** The intent classification shared by [buy] and [sell]: [exiting] is
    [self.position < 0] for a buy and [self.position > 0] for a sell. *)
Definition strategy_order (side : string) (exit_tag : string) (price sl : Q)
    (qty : option Z) (confidence : Q) (tag : string) : M World (option OrderResponse) :=
  w <- get ;;
  let pos := position (strat w) in
  let exiting := if String.eqb side "BUY" then (pos <? 0)%Z else (0 <? pos)%Z in
  intent <- (if exiting then
               ret (match qty with Some q => q | None => Z.abs pos end, false,
                    if String.eqb tag "" then exit_tag else tag)
             else
               q <- match qty with
                    | Some q => ret q
                    | None => on_risk (calculate_size (broker_net w)
                                         (s_symbol (strat w)) price sl confidence)
                    end ;;
               ret (q, true, tag)) ;;
  let '(calculated_qty, is_entry, tag') := intent in
  if (calculated_qty <=? 0)%Z then ret None
  else
    let new_exposure := if String.eqb side "BUY" then Z.abs (pos + calculated_qty)
                        else Z.abs (pos - calculated_qty) in
    allowed <- (if is_entry && (Z.abs pos <? new_exposure)%Z
                then on_risk (can_trade (s_symbol (strat w)) calculated_qty price)
                else ret true) ;;
    if negb allowed then ret None
    else strategy_execute side calculated_qty price tag'.

Definition buy (price sl : Q) (qty : option Z) (confidence : Q) (tag : string) :=
  strategy_order "BUY" "COVER_SHORT" price sl qty confidence tag.

Definition sell (price sl : Q) (qty : option Z) (confidence : Q) (tag : string) :=
  strategy_order "SELL" "EXIT_LONG" price sl qty confidence tag.

(** [BaseStrategy.close_position] *)
Definition close_position (tag : string) : M World unit :=
  w <- get ;;
  let pos := position (strat w) in
  if (pos =? 0)%Z then ret tt
  else if (0 <? pos)%Z then strategy_execute "SELL" pos 0 tag ;;; ret tt
  else strategy_execute "BUY" (Z.abs pos) 0 tag ;;; ret tt.

(* ------------------------------------------------------------------ *)
(** ** app/core/circuit_breaker.py: CircuitBreaker                      *)
(* ------------------------------------------------------------------ *)

Inductive CircuitState := CLOSED | OPEN | HALF_OPEN.

Definition CircuitState_eqb (a b : CircuitState) : bool :=
  match a, b with
  | CLOSED, CLOSED | OPEN, OPEN | HALF_OPEN, HALF_OPEN => true
  | _, _ => false
  end.

Record CircuitBreaker := {
  cb_state : CircuitState;
  failure_count : Z;
  failure_threshold : Z;
  recovery_timeout : Z;               (* seconds *)
  last_failure_time : option Z;       (* microseconds *)
  success_count : Z }.

Definition cb_with (st : CircuitState) (fc : Z) (lft : option Z) (sc : Z)
    (cb : CircuitBreaker) : CircuitBreaker :=
  {| cb_state := st; failure_count := fc; failure_threshold := failure_threshold cb;
     recovery_timeout := recovery_timeout cb; last_failure_time := lft;
     success_count := sc |}.

(** [_should_attempt_reset]: [elapsed >= recovery_timeout] with
    [elapsed = (now - last).total_seconds()], compared in microseconds. *)
Definition should_attempt_reset (now : Z) (cb : CircuitBreaker) : bool :=
  match last_failure_time cb with
  | None => true
  | Some t => (recovery_timeout cb * 1000000 <=? now - t)%Z
  end.

(** [call] up to its suspension point [await func(...)]: a caller that
    gets [Ok tt] goes on to run the protected function. *)
Definition call_enter (now : Z) : M CircuitBreaker unit :=
  cb <- get ;;
  if CircuitState_eqb (cb_state cb) OPEN then
    if should_attempt_reset now cb then
      put (cb_with HALF_OPEN (failure_count cb) (last_failure_time cb) (success_count cb) cb)
    else raise (PyException "Circuit breaker OPEN. Broker unavailable.")
  else ret tt.

(** [call] after [func] returned normally. *)
Definition call_success : M CircuitBreaker unit :=
  cb <- get ;;
  if CircuitState_eqb (cb_state cb) HALF_OPEN then
    put (cb_with CLOSED 0%Z (last_failure_time cb) (success_count cb + 1)%Z cb)
  else ret tt.

(** [call] after [func] raised [e] at time [now]: the error is re-raised. *)
Definition call_failure (e : exn) (now : Z) : M CircuitBreaker unit :=
  cb <- get ;;
  let fc := (failure_count cb + 1)%Z in
  let st := if (failure_threshold cb <=? fc)%Z then OPEN else cb_state cb in
  put (cb_with st fc (Some now) (success_count cb) cb) ;;;
  raise e.

(** The whole [call] of a protected function whose outcome is [outcome]. *)
Definition cb_call {A} (now : Z) (outcome : Exc A) (now_done : Z) : M CircuitBreaker A :=
  call_enter now ;;;
  match outcome with
  | Ok a => call_success ;;; ret a
  | Raise e => call_failure e now_done ;;; raise e
  end.

(* ------------------------------------------------------------------ *)
(** ** app/core/bus.py: EventBus tick queue                             *)
(* ------------------------------------------------------------------ *)

Section TickQueue.
Variable Tick : Type.

Definition TICK_QUEUE_SIZE : Z := 1000.

Record EventBus := {
  tick_queue : list Tick;
  tick_maxsize : Z;
  ticks_dropped : Z }.

Definition bus_with (q : list Tick) (d : Z) (b : EventBus) : EventBus :=
  {| tick_queue := q; tick_maxsize := tick_maxsize b; ticks_dropped := d |}.

(** [asyncio.Queue.full()] *)
Definition queue_full (b : EventBus) : bool :=
  (0 <? tick_maxsize b)%Z && (tick_maxsize b <=? Z.of_nat (length (tick_queue b)))%Z.

Definition put_nowait (t : Tick) : M EventBus unit :=
  b <- get ;;
  if queue_full b then raise QueueFull
  else put (bus_with (tick_queue b ++ [t]) (ticks_dropped b) b).

Definition get_nowait : M EventBus Tick :=
  b <- get ;;
  match tick_queue b with
  | [] => raise QueueEmpty
  | x :: rest => put (bus_with rest (ticks_dropped b) b) ;;; ret x
  end.

(** [except SomeError: handler] catching one exception class only. *)
Definition try_catch {S A} (m : M S A) (cls : exn) (h : M S A) : M S A :=
  try_except m (fun e => match e, cls with
                         | QueueFull, QueueFull | QueueEmpty, QueueEmpty => h
                         | _, _ => raise e
                         end).

Definition put_tick (t : Tick) : M EventBus unit :=
  try_catch (put_nowait t) QueueFull
    (try_catch
       (_old <- get_nowait ;;
        modify (fun b => bus_with (tick_queue b) (ticks_dropped b + 1)%Z b) ;;;
        put_nowait t)
       QueueEmpty (ret tt)).

(** The consumer side: [await tick_queue.get()] on a non-empty queue. *)
Definition take_tick : M EventBus (option Tick) :=
  try_catch (x <- get_nowait ;; ret (Some x)) QueueEmpty (ret None).

Definition qlen (b : EventBus) : Z := Z.of_nat (length (tick_queue b)).

Definition new_bus : EventBus :=
  {| tick_queue := []; tick_maxsize := TICK_QUEUE_SIZE; ticks_dropped := 0%Z |}.

Inductive BusOp := OpPut (t : Tick) | OpTake.

Fixpoint run_bus (ops : list BusOp) (b : EventBus) : EventBus :=
  match ops with
  | [] => b
  | OpPut t :: rest => run_bus rest (snd (put_tick t b))
  | OpTake :: rest => run_bus rest (snd (take_tick b))
  end.

End TickQueue.
Arguments put_tick {Tick} t.
Arguments take_tick {Tick}.
Arguments new_bus {Tick}.
Arguments qlen {Tick} b.
Arguments OpPut {Tick} t.
Arguments OpTake {Tick}.
Arguments run_bus {Tick} ops b.

(* ------------------------------------------------------------------ *)
(** ** app/data/feed.py: MarketFeed.connect                             *)
(* ------------------------------------------------------------------ *)

(** What the feed observes and does, in order. *)
Inductive FeedEvent :=
| Slept (secs : Z)
| Subscribed (delay_now : Z).   (* [subscribe] call, with [reconnect_delay] at that time *)

Record Feed := {
  reconnect_delay : Z;
  has_tokens : bool;              (* [self.subscribed_tokens] non-empty *)
  feed_log : list FeedEvent }.

Definition feed_with (d : Z) (f : Feed) (ev : list FeedEvent) : Feed :=
  {| reconnect_delay := d; has_tokens := has_tokens f; feed_log := feed_log f ++ ev |}.

Definition feed_sleep (secs : Z) : M Feed unit :=
  modify (fun f => feed_with (reconnect_delay f) f [Slept secs]).

(** One pass of the outer [while not self._stop_event.is_set()] body.
    [logged_in] is the broker session state; the watchdog then sees the
    socket quiet after [quiet_for] one-second ticks ([WatchSilent], raising
    the zombie error) or the stop event set after that many ticks
    ([WatchStopped]). [subscribe] swallows its own errors. *)
Inductive Watch := WatchSilent (ticks : nat) | WatchStopped (ticks : nat).

Record FeedRound := { paper : bool; logged_in : bool; watch : Watch }.

Fixpoint watchdog_ticks (n : nat) : M Feed unit :=
  match n with
  | O => ret tt
  | S k => feed_sleep 1 ;;; watchdog_ticks k
  end.

(** Returns [true] when the loop goes on, [false] when the stop event
    ended it. *)
Definition feed_round (r : FeedRound) : M Feed bool :=
  if negb (paper r) && negb (logged_in r) then feed_sleep 2 ;;; ret true
  else
    try_except
      (f <- get ;;
       (if has_tokens f
        then modify (fun f => feed_with (reconnect_delay f) f [Subscribed (reconnect_delay f)])
        else ret tt) ;;;
       match watch r with
       | WatchSilent n =>
           watchdog_ticks n ;;; raise (ConnectionError "Zombie Connection!")
       | WatchStopped n =>
           watchdog_ticks n ;;;
           modify (fun f => feed_with 2 f []) ;;; ret false
       end)
      (fun _ =>
         f <- get ;;
         feed_sleep (reconnect_delay f) ;;;
         modify (fun f => feed_with (Z.min (reconnect_delay f * 2) 60) f []) ;;;
         ret true).

Fixpoint connect (rounds : list FeedRound) : M Feed unit :=
  match rounds with
  | [] => ret tt
  | r :: rest => go <- feed_round r ;; if go then connect rest else ret tt
  end.

Definition new_feed (tokens : bool) : Feed :=
  {| reconnect_delay := 2; has_tokens := tokens; feed_log := [] |}.

(* ------------------------------------------------------------------ *)
(** ** Sequences of sentinel calls                                      *)
(* ------------------------------------------------------------------ *)

Inductive SentinelOp :=
| SCheck (symbol : string) (quantity : Z) (value : Q)
| SClose (pnl : Q)
| SRollback
| SSync (positions : option (list Z)).

Definition run_op (op : SentinelOp) : M RiskSentinel (option bool) :=
  match op with
  | SCheck sym q v => b <- check_pre_trade sym q v ;; ret (Some b)
  | SClose pnl => update_post_trade_close pnl ;;; ret None
  | SRollback => rollback_slot ;;; ret None
  | SSync p => sync_state p ;;; ret None
  end.

Fixpoint run_sentinel (ops : list SentinelOp) (s : RiskSentinel)
  : list (Exc (option bool)) * RiskSentinel :=
  match ops with
  | [] => ([], s)
  | op :: rest =>
      let (r, s1) := run_op op s in
      let (rs, s2) := run_sentinel rest s1 in (r :: rs, s2)
  end.

(* ------------------------------------------------------------------ *)
(** ** Concrete configurations used by the scenarios                    *)
(* ------------------------------------------------------------------ *)

(** A sentinel configuration of the class [RiskSentinel] is annotated
    with ([app.risk.models.RiskConfig]). *)
Definition models_config (max_open : Z) : RiskConfig :=
  RiskModels {| m_max_daily_loss := 1000; m_max_capital_per_trade := 1000000;
                m_max_open_trades := max_open; m_max_drawdown_pct := 5 # 100;
                m_kill_switch_active := false |}.

(** An initialised manager whose sentinel has [open] slots taken. *)
Definition manager_with (c : RiskConfig) (open : Z) : RiskManager :=
  {| sentinel := {| config := c; current_pnl := 0; open_trades := open;
                    trades_today := open; peak_equity := 0 |};
     sizer := {| method := "FIXED_RISK"; pc_risk_per_trade_pct := 1 # 100;
                 pc_leverage := 1 |};
     is_initialized := true; leverage := 1; total_allocated_capital := 100000 |}.

Definition world_with (c : RiskConfig) (open pos : Z) (script : list BrokerResp) : World :=
  {| rm := manager_with c open;
     strat := {| s_symbol := "REL"; s_token := "123"; position := pos;
                 avg_price := 100; last_trade_time := None |};
     broker_net := None; broker_script := script; sent := [];
     clock := 0 |}.

Definition broker_ok : BrokerResp :=
  BrokerDict (Some "Ok"%string) (Some "1001"%string) None.
Definition broker_not_ok : BrokerResp :=
  BrokerDict (Some "Not_Ok"%string) None (Some "Network Error"%string).

Definition zombie_round : FeedRound :=
  {| paper := false; logged_in := true; watch := WatchSilent 11 |}.

(** The breaker run by two callers whose protected calls overlap: each
    passes [call_enter] before either completes. *)
Definition two_overlapping_calls (now1 now2 : Z) (cb : CircuitBreaker)
  : Exc unit * CircuitBreaker * Exc unit * CircuitBreaker :=
  let (r1, cb1) := call_enter now1 cb in
  let (r2, cb2) := call_enter now2 cb1 in (r1, cb1, r2, cb2).

Definition cb_open_at_zero : CircuitBreaker :=
  {| cb_state := OPEN; failure_count := 3; failure_threshold := 3;
     recovery_timeout := 30; last_failure_time := Some 0%Z; success_count := 0 |}.

(* ------------------------------------------------------------------ *)
(** ** app/strategy/base.py: sync_position and safe_on_tick            *)
(* ------------------------------------------------------------------ *)

(** A row of the broker's [get_positions()["data"]]. *)
Record PositionRow := {
  instrumentToken : string;
  instrumentName : string;
  netQty : Z;
  avgPrice : Q }.

Definition with_position (p : Z) (a : Q) (s : Strategy) : Strategy :=
  {| s_symbol := s_symbol s; s_token := s_token s; position := p;
     avg_price := a; last_trade_time := last_trade_time s |}.

(** The [for pos in data] loop of [sync_position]: the first row whose
    token or symbol matches ends the loop ([break]); it returns [found]. *)
Fixpoint sync_rows (rows : list PositionRow) (s : Strategy) : bool * Strategy :=
  match rows with
  | [] => (false, s)
  | p :: rest =>
      if String.eqb (instrumentToken p) (s_token s) || String.eqb (instrumentName p) (s_symbol s)
      then if negb (netQty p =? 0)%Z
           then (true, with_position (netQty p) (avgPrice p) s)
           else (false, s)
      else sync_rows rest s
  end.

(** [sync_position]: [response] is [None] when [get_positions] raises
    (the error is logged and swallowed), otherwise its [data] rows
    ([[]] when the key is missing). *)
Definition sync_position (is_logged_in : bool) (response : option (list PositionRow))
    (s : Strategy) : Strategy :=
  if negb is_logged_in then s
  else match response with
       | None => s
       | Some [] => s
       | Some data =>
           let (found, s1) := sync_rows data s in
           if found then s1 else with_position 0 (avg_price s1) s1
       end.

(** The crash-protection counters of a strategy. *)
Record TickGuard := {
  error_count : Z;
  is_active : bool }.

Definition max_errors_before_stop : Z := 5.

(** [safe_on_tick]: [on_tick_ok] tells whether [on_tick] returned or raised. *)
Definition safe_on_tick (on_tick_ok : bool) (g : TickGuard) : TickGuard :=
  if on_tick_ok then {| error_count := 0; is_active := is_active g |}
  else
    let c := (error_count g + 1)%Z in
    {| error_count := c;
       is_active := if (max_errors_before_stop <=? c)%Z then false else is_active g |}.

Fixpoint run_ticks (outcomes : list bool) (g : TickGuard) : TickGuard :=
  match outcomes with
  | [] => g
  | o :: rest => run_ticks rest (safe_on_tick o g)
  end.

(* ------------------------------------------------------------------ *)
(** ** Successive breaker calls                                         *)
(* ------------------------------------------------------------------ *)

(** Calls made one after the other at time [now], each protected
    function ending with the given outcome. *)
Fixpoint run_calls (now : Z) (outcomes : list (Exc unit)) (cb : CircuitBreaker)
  : CircuitBreaker :=
  match outcomes with
  | [] => cb
  | o :: rest => run_calls now rest (snd (cb_call now o now cb))
  end.

(* ------------------------------------------------------------------ *)
(** ** app/data/stream.py: DataStream                                   *)
(* ------------------------------------------------------------------ *)

(** Python dicts with string keys, in insertion order: assigning an
    existing key keeps its place, a new key goes last. *)
Fixpoint assoc_set {V} (k : string) (v : V) (m : list (string * V)) : list (string * V) :=
  match m with
  | [] => [(k, v)]
  | (k', v') :: rest => if String.eqb k k' then (k, v) :: rest else (k', v') :: assoc_set k v rest
  end.

(** [del d[k]] *)
Fixpoint assoc_del {V} (k : string) (m : list (string * V)) : list (string * V) :=
  match m with
  | [] => []
  | (k', v') :: rest => if String.eqb k k' then rest else (k', v') :: assoc_del k rest
  end.

Definition assoc_mem {V} (k : string) (m : list (string * V)) : bool :=
  existsb (fun p => String.eqb (fst p) k) m.

Section Stream.
Variable Tick : Type.

Definition STREAM_QUEUE_SIZE : Z := 10000.

(** [tick_queue] holds batches of ticks; a subscriber queue is
    identified by its [sub_id] and holds ticks. *)
Record DataStream := {
  ds_tick_queue : list (list Tick);
  ds_subscribers : list (string * list (string * list Tick)) }.

Definition ds_with (q : list (list Tick)) (subs : list (string * list (string * list Tick)))
  : DataStream := {| ds_tick_queue := q; ds_subscribers := subs |}.

(** [DataStream.publish]: [put_nowait] on the queue of size 10000; a
    [QueueFull] is caught and the batch is lost. *)
Definition publish (ticks : list Tick) (ds : DataStream) : DataStream :=
  match ticks with
  | [] => ds
  | _ => if (STREAM_QUEUE_SIZE <=? Z.of_nat (length (ds_tick_queue ds)))%Z then ds
         else ds_with (ds_tick_queue ds ++ [ticks]) (ds_subscribers ds)
  end.

(** [DataStream.subscribe] with the fresh [sub_id] it draws. *)
Definition ds_subscribe (token sub_id : string) (ds : DataStream) : DataStream :=
  let subs := ds_subscribers ds in
  let subs1 := if assoc_mem token subs then subs else assoc_set token [] subs in
  let inner := match kw_lookup token subs1 with Some d => d | None => [] end in
  ds_with (ds_tick_queue ds) (assoc_set token (assoc_set sub_id [] inner) subs1).

(** [DataStream._unsubscribe] *)
Definition ds_unsubscribe (token sub_id : string) (ds : DataStream) : DataStream :=
  let subs := ds_subscribers ds in
  match kw_lookup token subs with
  | Some d =>
      if assoc_mem sub_id d then
        let d' := assoc_del sub_id d in
        let subs1 := assoc_set token d' subs in
        ds_with (ds_tick_queue ds)
                (match d' with [] => assoc_del token subs1 | _ => subs1 end)
      else ds
  | None => ds
  end.

(* ------------------------------------------------------------------ *)
(** ** app/data/feed.py: MarketFeed.on_message                          *)
(* ------------------------------------------------------------------ *)

(** A message of the SDK: a list of ticks, a dict (with or without a
    [data] list), or anything else. *)
Inductive FeedMessage :=
| MsgList (ticks : list Tick)
| MsgDict (data : option (list Tick))
| MsgOther.

Definition message_ticks (m : FeedMessage) : list Tick :=
  match m with
  | MsgList l => l
  | MsgDict (Some l) => l
  | _ => []
  end.

(** [on_message] at time [now]: it returns the new [last_packet_time]
    and the stream; [loop_open] stands for [self._main_loop] being set
    and not closed.  The scheduled [publish] is run in place. *)
Definition on_message (now : Z) (loop_open : bool) (m : FeedMessage) (ds : DataStream)
  : Z * DataStream :=
  let ticks := message_ticks m in
  (now, if negb (match ticks with [] => true | _ => false end) && loop_open
        then publish ticks ds else ds).

(** [asyncio.Queue(maxsize=1000)] made by [subscribe] for a subscriber. *)
Definition SUB_QUEUE_SIZE : Z := 1000.

(** [q.put_nowait(tick)] under [except asyncio.QueueFull: pass], on a
    queue of size [maxsize] ([full()] only when [0 < maxsize <= qsize()]). *)
Definition put_or_drop (maxsize : Z) (tick : Tick) (q : list Tick) : list Tick :=
  if (0 <? maxsize)%Z && (maxsize <=? Z.of_nat (length q))%Z then q else q ++ [tick].

(** [_global_listeners]: each listener's [sub_id], with its queue's
    [maxsize] and contents (the aggregator registers an unbounded one). *)
Definition GlobalListeners : Type := list (string * (Z * list Tick)).

(** The body of [for tick in ticks] in [consume]; [tick_tk tick] is
    [str(tick.get("tk"))].  The queues are mutated in place: the dict of
    the token keeps its keys and their order. *)
Definition route_tick (tick_tk : Tick -> string) (tick : Tick)
    (subs : list (string * list (string * list Tick))) (gl : GlobalListeners)
  : list (string * list (string * list Tick)) * GlobalListeners :=
  let token := tick_tk tick in
  let subs' := match kw_lookup token subs with
               | Some d => assoc_set token
                             (map (fun p => (fst p, put_or_drop SUB_QUEUE_SIZE tick (snd p))) d) subs
               | None => subs
               end in
  (subs', map (fun g => (fst g, (fst (snd g), put_or_drop (fst (snd g)) tick (snd (snd g))))) gl).

(** One pass of the [while True] loop of [consume]: [await
    self.tick_queue.get()] takes the oldest batch ([None]: the loop waits
    on an empty queue), then every tick of it is routed. *)
Definition consume_step (tick_tk : Tick -> string) (ds : DataStream) (gl : GlobalListeners)
  : option (DataStream * GlobalListeners) :=
  match ds_tick_queue ds with
  | [] => None
  | ticks :: rest =>
      let r := fold_left (fun acc tick => route_tick tick_tk tick (fst acc) (snd acc))
                 ticks (ds_subscribers ds, gl) in
      Some (ds_with rest (fst r), snd r)
  end.

(** What a queue of size [maxsize] holding [q] holds after being offered
    the ticks [l] one by one, each dropped when the queue is full. *)
Definition capped (maxsize : Z) (q l : list Tick) : list Tick :=
  if (0 <? maxsize)%Z then q ++ firstn (Z.to_nat maxsize - length q) l else q ++ l.

End Stream.
Arguments ds_with {Tick} q subs.
Arguments publish {Tick} ticks ds.
Arguments ds_subscribe {Tick} token sub_id ds.
Arguments ds_unsubscribe {Tick} token sub_id ds.
Arguments MsgList {Tick} ticks.
Arguments MsgDict {Tick} data.
Arguments MsgOther {Tick}.
Arguments message_ticks {Tick} m.
Arguments on_message {Tick} now loop_open m ds.
Arguments put_or_drop {Tick} maxsize tick q.
Arguments GlobalListeners : clear implicits.
Arguments route_tick {Tick} tick_tk tick subs gl.
Arguments consume_step {Tick} tick_tk ds gl.
Arguments capped {Tick} maxsize q l.
(* ------------------------------------------------------------------ *)
(** ** Lemmas                                                           *)
(* ------------------------------------------------------------------ *)

Lemma kill_switch_set_kill (b : bool) (c : RiskConfig) :
  cfg_kill_switch_active (cfg_set_kill_switch b c) = b.
Proof. destruct c; reflexivity. Qed.

Lemma check_pre_trade_killed (sym : string) (q : Z) (v : Q) (s : RiskSentinel) :
  cfg_kill_switch_active (config s) = true ->
  check_pre_trade sym q v s = (Ok false, s).
Proof. intros H. unfold check_pre_trade, bind, get. rewrite H. reflexivity. Qed.

Lemma run_op_keeps_kill (op : SentinelOp) (s : RiskSentinel) :
  cfg_kill_switch_active (config s) = true ->
  cfg_kill_switch_active (config (snd (run_op op s))) = true.
Proof.
  intros H. destruct op as [sym q v | pnl | | [qs|]].
  - unfold run_op, bind, ret. rewrite check_pre_trade_killed by exact H. exact H.
  - cbn. unfold update_post_trade_close, bind, get, put. cbn.
    destruct (Qle_bool _ _); cbn; [apply kill_switch_set_kill | exact H].
  - exact H.
  - exact H.
  - exact H.
Qed.

Lemma run_sentinel_keeps_kill (ops : list SentinelOp) (s : RiskSentinel) :
  cfg_kill_switch_active (config s) = true ->
  cfg_kill_switch_active (config (snd (run_sentinel ops s))) = true.
Proof.
  revert s. induction ops as [|op rest IH]; intros s H; [exact H|].
  cbn. destruct (run_op op s) as [r s1] eqn:E.
  assert (H1 : cfg_kill_switch_active (config s1) = true).
  { pose proof (run_op_keeps_kill op s H) as K. rewrite E in K. exact K. }
  specialize (IH s1 H1). destruct (run_sentinel rest s1) as [rs s2]. exact IH.
Qed.

Lemma td_seconds_small (d : Z) : (0 <= d < 1000000)%Z -> td_seconds d = 0%Z.
Proof.
  intros H. unfold td_seconds. rewrite Z.mod_small by lia. apply Z.div_small. lia.
Qed.

(* ------------------------------------------------------------------ *)
(** ** Claims                                                           *)
(* ------------------------------------------------------------------ *)

(** C2: once the kill switch is on, no sequence of [check_pre_trade],
    [update_post_trade_close], [rollback_slot] or [sync_state] calls
    clears it; afterwards every [check_pre_trade] returns [False] and
    leaves the sentinel (slot counters included) untouched; only
    [reset_daily] clears it. *)
Theorem C2_kill_switch_latches (ops : list SentinelOp) (s : RiskSentinel) :
  cfg_kill_switch_active (config s) = true ->
  let s' := snd (run_sentinel ops s) in
  cfg_kill_switch_active (config s') = true /\
  (forall sym q v, check_pre_trade sym q v s' = (Ok false, s')) /\
  cfg_kill_switch_active (config (snd (reset_daily s'))) = false.
Proof.
  intros H s'.
  assert (K : cfg_kill_switch_active (config s') = true)
    by (apply run_sentinel_keeps_kill; exact H).
  split; [exact K|split].
  - intros sym q v. apply check_pre_trade_killed. exact K.
  - cbn. apply kill_switch_set_kill.
Qed.

Lemma C2_kill_switch_latches_witness :
  let s := {| config := cfg_set_kill_switch true default_risk_config;
              current_pnl := -1010; open_trades := 3; trades_today := 3;
              peak_equity := 0 |} in
  cfg_kill_switch_active (config s) = true /\
  cfg_kill_switch_active (config (snd (run_sentinel [SClose 50; SRollback; SSync (Some [0; 5]%Z)] s))) = true.
Proof.
  cbv zeta. split; [reflexivity|].
  refine (proj1 (C2_kill_switch_latches [SClose 50; SRollback; SSync (Some [0; 5]%Z)] _ _)).
  reflexivity.
Defined.

(** C8: after initialisation, with the [app.schemas.common.RiskConfig]
    the manager builds, the kill switch off and the P&L above the loss
    limit, [can_trade] raises [AttributeError] (the sentinel reads
    [config.max_open_trades]) and reserves no slot. *)
Theorem C8_can_trade_attribute_error (r : RiskManager) (c : CommonRiskConfig)
    (sym : string) (qty : Z) (price : Q) :
  is_initialized r = true ->
  config (sentinel r) = SchemasCommon c ->
  c_kill_switch_active c = false ->
  Qle_bool (current_pnl (sentinel r)) (- c_max_daily_loss c) = false ->
  can_trade sym qty price r = (Raise (AttributeError "RiskConfig" "max_open_trades"), r).
Proof.
  intros Hi Hc Hk Hp.
  unfold can_trade, on_sentinel, lift, bind, get. rewrite Hi. cbn.
  unfold check_pre_trade, bind, get. rewrite Hc. cbn. rewrite Hk, Hp. cbn.
  destruct r; reflexivity.
Qed.

Lemma C8_can_trade_attribute_error_witness :
  let r := {| sentinel := RiskSentinel_new default_risk_config;
              sizer := {| method := "FIXED_RISK"; pc_risk_per_trade_pct := 1 # 100;
                          pc_leverage := 1 |};
              is_initialized := true; leverage := 1; total_allocated_capital := 100000 |} in
  can_trade "RELIANCE" 10 2500 r = (Raise (AttributeError "RiskConfig" "max_open_trades"), r).
Proof.
  cbv zeta.
  apply (C8_can_trade_attribute_error _
           {| c_max_daily_loss := 1000; c_max_concurrent_trades := 3;
              c_kill_switch_active := false; c_risk_per_trade_pct := 1 # 100 |});
    reflexivity.
Defined.

(** C9: [RiskManager.on_execution_failure] raises [AttributeError]
    ([RiskSentinel] has no [on_execution_failure]); so when the broker
    rejects an order (a dict without [nOrdNo] whose [stat] is not ["Ok"])
    or raises, [_send_single_order] propagates that [AttributeError] and
    the risk state (its reserved slot included) is left as it was. *)
Theorem C9_rejection_raises_attribute_error (r : RiskManager) (w : World)
    (symbol token side : string) (qty : Z) (price : Q) (tag : string)
    (resp : BrokerResp) (rest : list BrokerResp) :
  broker_script w = resp :: rest ->
  (exists m, resp = BrokerRaises m) \/
  (exists st em, resp = BrokerDict st None em /\ st <> Some "Ok"%string) ->
  on_execution_failure r = (Raise (AttributeError "RiskSentinel" "on_execution_failure"), r) /\
  fst (send_single_order symbol token side qty price tag w)
    = Raise (AttributeError "RiskSentinel" "on_execution_failure") /\
  rm (snd (send_single_order symbol token side qty price tag w)) = rm w.
Proof.
  intros Hs Hr. split; [reflexivity|].
  cbv beta iota zeta delta [send_single_order try_except bind place_order get].
  rewrite Hs.
  destruct Hr as [[m ->] | [st [em [-> Hst]]]].
  - cbn. split; reflexivity.
  - assert (E : (match st with Some x => String.eqb x "Ok" | None => false end
                 || false) = false).
    { destruct st as [x|]; [|reflexivity].
      rewrite orb_false_r. apply String.eqb_neq. intros ->. apply Hst. reflexivity. }
    cbn. cbn in E. rewrite E. cbn. split; reflexivity.
Qed.

Lemma C9_rejection_raises_attribute_error_witness :
  let w := {| rm := {| sentinel := RiskSentinel_new default_risk_config;
                       sizer := {| method := "FIXED_RISK"; pc_risk_per_trade_pct := 1 # 100;
                                   pc_leverage := 1 |};
                       is_initialized := true; leverage := 1;
                       total_allocated_capital := 100000 |};
              strat := {| s_symbol := "REL"; s_token := "123"; position := 0;
                          avg_price := 0; last_trade_time := None |};
              broker_net := None;
              broker_script := [BrokerDict (Some "Not_Ok"%string) None (Some "Network Error"%string)];
              sent := []; clock := 0 |} in
  fst (send_single_order "REL" "123" "BUY" 100 0 "S" w)
    = Raise (AttributeError "RiskSentinel" "on_execution_failure").
Proof.
  cbv zeta.
  match goal with
  | |- fst (send_single_order _ _ _ _ _ _ ?w) = _ =>
      refine (proj1 (proj2 (C9_rejection_raises_attribute_error (rm w) w "REL" "123" "BUY" 100 0 "S"
                (BrokerDict (Some "Not_Ok"%string) None (Some "Network Error"%string))
                [] eq_refl _)))
  end.
  right. exists (Some "Not_Ok"%string), (Some "Network Error"%string).
  split; [reflexivity|discriminate].
Defined.

(** C10: [_execute] returns [None] and sends nothing when called less
    than one second after the last successful trade; this covers an exit
    through [sell] and the forced flatten of [close_position]. *)
Theorem C10_debounce_drops_orders (w : World) (t : Z) (side : string) (qty : Z)
    (price sl conf : Q) (tag : string) :
  last_trade_time (strat w) = Some t ->
  (0 <= clock w - t < 1000000)%Z ->
  strategy_execute side qty price tag w = (Ok None, w) /\
  (position (strat w) <> 0%Z -> close_position tag w = (Ok tt, w)) /\
  ((0 < position (strat w))%Z -> sell price sl None conf tag w = (Ok None, w)).
Proof.
  intros Ht Hd.
  assert (X : forall sd q p tg, strategy_execute sd q p tg w = (Ok None, w)).
  { intros sd q p tg. unfold strategy_execute, bind, get.
    rewrite Ht, (td_seconds_small _ Hd). reflexivity. }
  split; [apply X|split].
  - intros Hp. unfold close_position, bind, get.
    destruct (Z.eqb_spec (position (strat w)) 0) as [E|_]; [contradiction|].
    destruct (0 <? position (strat w))%Z; rewrite X; reflexivity.
  - intros Hp. unfold sell, strategy_order, bind, get. cbn.
    assert (P : (0 <? position (strat w))%Z = true) by (apply Z.ltb_lt; exact Hp).
    rewrite P. cbn.
    assert (Q1 : (Z.abs (position (strat w)) <=? 0)%Z = false) by (apply Z.leb_gt; lia).
    rewrite Q1. apply X.
Qed.

Lemma C10_debounce_drops_orders_witness :
  let w := {| rm := {| sentinel := RiskSentinel_new default_risk_config;
                       sizer := {| method := "FIXED_RISK"; pc_risk_per_trade_pct := 1 # 100;
                                   pc_leverage := 1 |};
                       is_initialized := true; leverage := 1;
                       total_allocated_capital := 100000 |};
              strat := {| s_symbol := "REL"; s_token := "123"; position := 25;
                          avg_price := 100; last_trade_time := Some 5000000%Z |};
              broker_net := None; broker_script := [];
              sent := []; clock := 5400000 |} in
  close_position "FORCE_CLOSE" w = (Ok tt, w).
Proof.
  cbv zeta.
  refine (proj1 (proj2 (C10_debounce_drops_orders _ 5000000 "SELL" 25 0 0 1 "FORCE_CLOSE" _ _)) _).
  - reflexivity.
  - cbn. lia.
  - cbn. discriminate.
Defined.

Section TickQueueProofs.
Context {Tick : Type}.

Lemma put_tick_spec (b : EventBus Tick) (t : Tick) :
  tick_maxsize Tick b = TICK_QUEUE_SIZE ->
  (qlen b <= TICK_QUEUE_SIZE)%Z ->
  put_tick t b =
    (Ok tt,
     if (qlen b =? TICK_QUEUE_SIZE)%Z
     then bus_with Tick (tl (tick_queue Tick b) ++ [t]) (ticks_dropped Tick b + 1)%Z b
     else bus_with Tick (tick_queue Tick b ++ [t]) (ticks_dropped Tick b) b).
Proof.
  intros Hm Hl. unfold qlen, TICK_QUEUE_SIZE in *.
  unfold put_tick, try_catch, try_except, put_nowait, get_nowait, bind, get, put, modify, ret.
  unfold queue_full. rewrite Hm. cbn [Z.ltb Z.compare].
  destruct (Z.eqb_spec (Z.of_nat (length (tick_queue Tick b))) 1000) as [E|E].
  - rewrite E. cbn.
    destruct (tick_queue Tick b) as [|x rest] eqn:Q; [cbn in E; discriminate|].
    cbn. rewrite Hm. cbn in E.
    assert (L : (1000 <=? Z.of_nat (length rest))%Z = false) by (apply Z.leb_gt; lia).
    rewrite L. reflexivity.
  - assert (L : (1000 <=? Z.of_nat (length (tick_queue Tick b)))%Z = false)
      by (apply Z.leb_gt; lia).
    cbn. rewrite L. reflexivity.
Qed.

Lemma run_bus_bounded (ops : list (BusOp Tick)) (b : EventBus Tick) :
  tick_maxsize Tick b = TICK_QUEUE_SIZE ->
  (qlen b <= TICK_QUEUE_SIZE)%Z ->
  tick_maxsize Tick (run_bus ops b) = TICK_QUEUE_SIZE /\
  (qlen (run_bus ops b) <= TICK_QUEUE_SIZE)%Z.
Proof.
  revert b. induction ops as [|[t|] rest IH]; intros b Hm Hl; [split; assumption| |].
  - cbn [run_bus]. rewrite (put_tick_spec b t Hm Hl). cbn [snd].
    apply IH.
    + destruct (_ =? _)%Z; exact Hm.
    + unfold qlen, TICK_QUEUE_SIZE in *.
      destruct (Z.eqb_spec (Z.of_nat (length (tick_queue Tick b))) 1000) as [E|E];
        cbn [tick_queue bus_with]; rewrite length_app; cbn [length].
      * destruct (tick_queue Tick b) as [|x r]; cbn in *; lia.
      * lia.
  - cbn [run_bus]. apply IH.
    + unfold take_tick, try_catch, try_except, get_nowait, bind, get, put, ret.
      destruct (tick_queue Tick b); exact Hm.
    + unfold take_tick, try_catch, try_except, get_nowait, bind, get, put, ret.
      unfold qlen in *. destruct (tick_queue Tick b) as [|x r] eqn:Q; cbn.
      * rewrite Q. exact Hl.
      * unfold TICK_QUEUE_SIZE in *. cbn [length] in Hl. lia.
Qed.

End TickQueueProofs.

(** C6: the tick queue never holds more than [TICK_QUEUE_SIZE] (1000)
    ticks over any run of puts and takes from an empty bus; a put always
    returns at once, and on a full queue it drops exactly the oldest tick,
    adds one to [ticks_dropped] and appends the new tick, while on a
    non-full queue it appends and leaves [ticks_dropped] unchanged. *)
Theorem C6_tick_queue_drop_oldest {Tick : Type} (ops : list (BusOp Tick))
    (b : EventBus Tick) (t : Tick) :
  tick_maxsize Tick b = TICK_QUEUE_SIZE ->
  (qlen b <= TICK_QUEUE_SIZE)%Z ->
  (qlen (run_bus ops new_bus) <= TICK_QUEUE_SIZE)%Z /\
  fst (put_tick t b) = Ok tt /\
  (qlen (snd (put_tick t b)) <= TICK_QUEUE_SIZE)%Z /\
  (qlen b = TICK_QUEUE_SIZE ->
     tick_queue Tick (snd (put_tick t b)) = tl (tick_queue Tick b) ++ [t] /\
     ticks_dropped Tick (snd (put_tick t b)) = (ticks_dropped Tick b + 1)%Z) /\
  ((qlen b < TICK_QUEUE_SIZE)%Z ->
     tick_queue Tick (snd (put_tick t b)) = tick_queue Tick b ++ [t] /\
     ticks_dropped Tick (snd (put_tick t b)) = ticks_dropped Tick b).
Proof.
  intros Hm Hl.
  split; [apply (run_bus_bounded ops new_bus eq_refl); cbn; unfold TICK_QUEUE_SIZE; lia|].
  pose proof (proj2 (run_bus_bounded [OpPut t] b Hm Hl)) as B. cbn [run_bus] in B.
  rewrite (put_tick_spec b t Hm Hl) in *. cbn [fst snd] in *.
  split; [reflexivity|].
  split; [exact B|].
  split.
  - intros E. rewrite E, Z.eqb_refl. split; reflexivity.
  - intros E. destruct (Z.eqb_spec (qlen b) TICK_QUEUE_SIZE) as [E'|_]; [lia|].
    split; reflexivity.
Qed.

Lemma C6_tick_queue_drop_oldest_witness :
  let b := run_bus (repeat (OpPut 0%nat) 1000) new_bus in
  tick_maxsize nat b = TICK_QUEUE_SIZE /\ qlen b = TICK_QUEUE_SIZE /\
  ticks_dropped nat (snd (put_tick 1%nat b)) = 1%Z.
Proof.
  cbv zeta.
  assert (Hm : tick_maxsize nat (run_bus (repeat (OpPut 0%nat) 1000) new_bus) = TICK_QUEUE_SIZE)
    by (vm_compute; reflexivity).
  assert (Hl : qlen (run_bus (repeat (OpPut 0%nat) 1000) new_bus) = TICK_QUEUE_SIZE)
    by (vm_compute; reflexivity).
  split; [exact Hm|split; [exact Hl|]].
  destruct (C6_tick_queue_drop_oldest [] _ 1%nat Hm (Z.eq_le_incl _ _ Hl))
    as (_ & _ & _ & Hfull & _).
  rewrite (proj2 (Hfull Hl)). vm_compute. reflexivity.
Defined.

(** C3 (counterexample): 40 s after the breaker opened, a first caller
    moves it to HALF_OPEN and is admitted; a second caller arriving while
    that probe is in flight is admitted too instead of failing fast. *)
Lemma C3_second_probe_admitted :
  two_overlapping_calls 40000000 40000001 cb_open_at_zero
  = (Ok tt, cb_with HALF_OPEN 3 (Some 0%Z) 0 cb_open_at_zero,
     Ok tt, cb_with HALF_OPEN 3 (Some 0%Z) 0 cb_open_at_zero).
Proof. reflexivity. Qed.

(** C3 (amended): [CircuitBreaker.call] admits every call made while the
    breaker is CLOSED or HALF_OPEN and leaves it unchanged (there is no
    probe flag); in OPEN a call admitted once [recovery_timeout] has
    elapsed moves the breaker to HALF_OPEN, and before that it fails fast
    with a plain [Exception].  A success in HALF_OPEN closes the breaker
    and resets the failure count, a success otherwise changes nothing;
    every failure, in any state, increments the failure count, records
    the time and re-raises, opening the breaker when the count reaches
    the threshold and otherwise keeping its state. *)
Theorem C3_half_open_admits_all (cb : CircuitBreaker) (now : Z) (e : exn) :
  (cb_state cb = HALF_OPEN -> call_enter now cb = (Ok tt, cb)) /\
  (cb_state cb = CLOSED -> call_enter now cb = (Ok tt, cb)) /\
  (cb_state cb = OPEN -> should_attempt_reset now cb = true ->
     call_enter now cb
     = (Ok tt, cb_with HALF_OPEN (failure_count cb) (last_failure_time cb) (success_count cb) cb)) /\
  (cb_state cb = OPEN -> should_attempt_reset now cb = false ->
     call_enter now cb = (Raise (PyException "Circuit breaker OPEN. Broker unavailable."), cb)) /\
  (cb_state cb = HALF_OPEN ->
     call_success cb
     = (Ok tt, cb_with CLOSED 0 (last_failure_time cb) (success_count cb + 1) cb)) /\
  (cb_state cb <> HALF_OPEN -> call_success cb = (Ok tt, cb)) /\
  call_failure e now cb
  = (Raise e, cb_with (if (failure_threshold cb <=? failure_count cb + 1)%Z then OPEN
                       else cb_state cb)
                      (failure_count cb + 1) (Some now) (success_count cb) cb).
Proof.
  unfold call_enter, call_success, call_failure, bind, get, put, ret, raise.
  split; [intros H; rewrite H; reflexivity|].
  split; [intros H; rewrite H; reflexivity|].
  split; [intros H R; rewrite H, R; reflexivity|].
  split; [intros H R; rewrite H, R; reflexivity|].
  split; [intros H; rewrite H; reflexivity|].
  split; [|reflexivity].
  intros H. destruct (cb_state cb); [reflexivity|reflexivity|congruence].
Qed.

Lemma C3_half_open_admits_all_witness :
  call_enter 40000001 (cb_with HALF_OPEN 3 (Some 0%Z) 0 cb_open_at_zero)
  = (Ok tt, cb_with HALF_OPEN 3 (Some 0%Z) 0 cb_open_at_zero).
Proof.
  exact (proj1 (C3_half_open_admits_all (cb_with HALF_OPEN 3 (Some 0%Z) 0 cb_open_at_zero)
                  40000001 (PyException "x")) eq_refl).
Defined.

(** C1 (code bug): a strategy holding +50 that sells classifies the sell
    as an exit and skips its own gate, but [_execute] goes through
    [ExecutionEngine.execute_order], which calls [can_trade] again.  With
    [open_trades = max_open_trades = 3] the exit is refused ([None], no
    order reaches the broker); with the configuration the manager really
    builds, the same exit raises [AttributeError], again with no order. *)
Theorem C1_exit_regated_by_execute_order :
  let w := world_with (models_config 3) 3 50 [broker_ok] in
  sell 100 0 None 1 "SIGNAL" w = (Ok None, w) /\
  let w' := world_with default_risk_config 3 50 [broker_ok] in
  fst (sell 100 0 None 1 "SIGNAL" w') = Raise (AttributeError "RiskConfig" "max_open_trades") /\
  sent (snd (sell 100 0 None 1 "SIGNAL" w')) = [].
Proof. vm_compute. split; [reflexivity|split; reflexivity]. Qed.

(** C4 (code bug): [execute_order] never reaches the iceberg path:
    once [can_trade] has reserved a slot it calls
    [master_data.get_data], which [MasterDataManager] does not define, so
    the scenario of the repository's own test (300 requested, freeze 100,
    broker Ok, Ok, Not_Ok) raises [AttributeError] with no leg sent and
    the slot kept.  [_execute_iceberg] itself, called with freeze 100,
    sends three legs of 100 on that script and then raises
    [AttributeError] (the missing [on_execution_failure]) instead of
    answering PARTIAL with 200 filled; with every leg accepted it answers
    COMPLETE with the comma-joined ids and the full quantity. *)
Theorem C4_iceberg_failing_leg_raises :
  let w := world_with (models_config 3) 0 0 [broker_ok; broker_ok; broker_not_ok] in
  let via_order := execute_order "REL" "123" "BUY" 300 0 "STRATEGY" w in
  let bad := execute_iceberg "REL" "123" "BUY" 300 0 100 "STRATEGY" w in
  let good := execute_iceberg "REL" "123" "BUY" 250 0 100 "STRATEGY"
               (world_with (models_config 3) 0 0 [broker_ok; broker_ok; broker_ok]) in
  fst via_order = Raise (AttributeError "MasterDataManager" "get_data") /\
  sent (snd via_order) = [] /\
  open_trades (sentinel (rm (snd via_order))) = 1%Z /\
  fst bad = Raise (AttributeError "RiskSentinel" "on_execution_failure") /\
  map op_qty (sent (snd bad)) = [100; 100; 100]%Z /\
  fst good = Ok {| order_id := "1001,1001,1001"; status := COMPLETE;
                   filled_qty := 250; average_price := 0; error_message := None |} /\
  map op_qty (sent (snd good)) = [100; 100; 50]%Z.
Proof. vm_compute. repeat split; reflexivity. Qed.

(** C5 (code bug): [RiskManager()] cannot be built ([PositionSizer()]
    lacks its [config] argument); [calculate_size] for the example of the
    claim (capital 100000, 4 slots, entry 100, sl 99, confidence 1) raises
    [AttributeError] on [master_data.get_data] (which [MasterDataManager]
    does not define) before reaching the sizer, whose call would raise
    [TypeError] on the keyword [total_capital]; and the sizer's own
    FIXED_RISK formula on those numbers gives 1000, not 25. *)
Theorem C5_sizer_interface_mismatch :
  RiskManager_init = Raise (TypeError "missing 1 required positional argument: 'config'") /\
  fst (calculate_size None "X" 100 99 1
         {| sentinel := RiskSentinel_new
                          (SchemasCommon {| c_max_daily_loss := 1000; c_max_concurrent_trades := 4;
                                            c_kill_switch_active := false;
                                            c_risk_per_trade_pct := 1 # 100 |});
            sizer := {| method := "FIXED_RISK"; pc_risk_per_trade_pct := 1 # 100;
                        pc_leverage := 1 |};
            is_initialized := true; leverage := 1; total_allocated_capital := 100000 |})
    = Raise (AttributeError "MasterDataManager" "get_data") /\
  calculate_qty_body {| method := "FIXED_RISK"; pc_risk_per_trade_pct := 1 # 100;
                        pc_leverage := 1 |} 100000 100 99 1 0 0 = Ok 1000%Z.
Proof. vm_compute. repeat split; reflexivity. Qed.

(** C7 (code bug): with tokens subscribed and the feed going silent
    three times, the backoff sleeps are 2, 4 and 8 s; the resubscription
    after the first reconnect succeeds while the delay stays 4 (it is only
    set back to 2 when the stop event ends the watchdog loop). *)
Theorem C7_delay_not_reset_on_resubscribe :
  let f := snd (connect [zombie_round; zombie_round; zombie_round] (new_feed true)) in
  filter (fun ev => match ev with Slept n => (1 <? n)%Z | Subscribed _ => true end) (feed_log f)
  = [Subscribed 2; Slept 2; Subscribed 4; Slept 4; Subscribed 8; Slept 8] /\
  reconnect_delay f = 16%Z.
Proof. vm_compute. split; reflexivity. Qed.

(* ------------------------------------------------------------------ *)
(** ** Further properties of the code                                   *)
(* ------------------------------------------------------------------ *)

(** *** Risk sentinel *)

Lemma check_pre_trade_eq (sym : string) (q : Z) (v : Q) (s : RiskSentinel) :
  check_pre_trade sym q v s =
  if cfg_kill_switch_active (config s) then (Ok false, s)
  else if Qle_bool (current_pnl s) (- cfg_max_daily_loss (config s)) then (Ok false, s)
  else match config s with
       | SchemasCommon _ => (Raise (AttributeError "RiskConfig" "max_open_trades"), s)
       | RiskModels c =>
           if (m_max_open_trades c <=? open_trades s)%Z then (Ok false, s)
           else if Qle_bool v (m_max_capital_per_trade c)
                then (Ok true, with_counts (open_trades s + 1) (trades_today s + 1) s)
                else (Ok false, s)
       end.
Proof.
  unfold check_pre_trade, bind, get, put, ret, liftE.
  destruct (cfg_kill_switch_active (config s)); [reflexivity|].
  destruct (Qle_bool _ _); [reflexivity|].
  destruct (config s); cbn; [reflexivity|].
  destruct (_ <=? _)%Z; [reflexivity|]. cbn.
  destruct (Qle_bool _ _); reflexivity.
Qed.

Lemma with_counts_same (s : RiskSentinel) :
  with_counts (open_trades s) (trades_today s) s = s.
Proof. destruct s; reflexivity. Qed.

Lemma cfg_set_kill_switch_models (b : bool) (c : RiskConfig) (mc : ModelsRiskConfig) :
  c = RiskModels mc ->
  exists mc', cfg_set_kill_switch b c = RiskModels mc' /\
              m_max_open_trades mc' = m_max_open_trades mc /\
              m_max_daily_loss mc' = m_max_daily_loss mc /\
              m_max_capital_per_trade mc' = m_max_capital_per_trade mc.
Proof. intros ->. eexists. split; [reflexivity|]. cbn. repeat split. Qed.

(** X1: [check_pre_trade] either refuses ([False]) or raises and leaves
    the sentinel untouched, or admits; it admits only when the kill
    switch is off, the P&L is above [-max_daily_loss], fewer than
    [max_open_trades] trades are open and the value is at most
    [max_capital_per_trade], and admitting adds exactly one to
    [open_trades] and to [trades_today], nothing else changing. *)
Theorem X1_check_pre_trade_outcomes (sym : string) (q : Z) (v : Q) (s : RiskSentinel) :
  match check_pre_trade sym q v s with
  | (Ok true, s') =>
      (exists c, config s = RiskModels c /\
                 m_kill_switch_active c = false /\
                 - m_max_daily_loss c < current_pnl s /\
                 (open_trades s < m_max_open_trades c)%Z /\
                 v <= m_max_capital_per_trade c) /\
      s' = with_counts (open_trades s + 1) (trades_today s + 1) s
  | (_, s') => s' = s
  end.
Proof.
  rewrite check_pre_trade_eq.
  destruct (cfg_kill_switch_active (config s)) eqn:K; [reflexivity|].
  destruct (Qle_bool (current_pnl s) _) eqn:P; [reflexivity|].
  destruct (config s) as [cc|mc] eqn:C; [reflexivity|].
  destruct (Z.leb_spec (m_max_open_trades mc) (open_trades s)) as [O|O]; [reflexivity|].
  destruct (Qle_bool v _) eqn:V; [|reflexivity].
  split; [|reflexivity].
  exists mc. split; [reflexivity|]. cbn in K, P.
  split; [exact K|]. split.
  - apply Qnot_le_lt. intros L. apply Qle_bool_iff in L. congruence.
  - split; [exact O|]. apply Qle_bool_iff. exact V.
Qed.

Lemma check_pre_trade_true (sym : string) (q : Z) (v : Q) (s s1 : RiskSentinel) :
  check_pre_trade sym q v s = (Ok true, s1) ->
  (exists c, config s = RiskModels c /\ (open_trades s < m_max_open_trades c)%Z) /\
  s1 = with_counts (open_trades s + 1) (trades_today s + 1) s.
Proof.
  rewrite check_pre_trade_eq.
  destruct (cfg_kill_switch_active (config s)); [congruence|].
  destruct (Qle_bool _ _); [congruence|].
  destruct (config s) as [cc|mc]; [congruence|].
  destruct (Z.leb_spec (m_max_open_trades mc) (open_trades s)) as [O|O]; [congruence|].
  destruct (Qle_bool v _); [|congruence].
  intros E. injection E as <-. split; [|reflexivity]. exists mc. split; [reflexivity|exact O].
Qed.

Lemma check_pre_trade_other (sym : string) (q : Z) (v : Q) (s s1 : RiskSentinel) r :
  check_pre_trade sym q v s = (r, s1) -> r <> Ok true -> s1 = s.
Proof.
  rewrite check_pre_trade_eq.
  destruct (cfg_kill_switch_active (config s)); [congruence|].
  destruct (Qle_bool _ _); [congruence|].
  destruct (config s) as [cc|mc]; [congruence|].
  destruct (_ <=? _)%Z; [congruence|].
  destruct (Qle_bool v _); congruence.
Qed.

Lemma check_pre_trade_cases (sym : string) (q : Z) (v : Q) (s : RiskSentinel) :
  (fst (check_pre_trade sym q v s) = Ok true /\
   snd (check_pre_trade sym q v s) = with_counts (open_trades s + 1) (trades_today s + 1) s) \/
  (fst (check_pre_trade sym q v s) <> Ok true /\ snd (check_pre_trade sym q v s) = s).
Proof.
  destruct (check_pre_trade sym q v s) as [r s1] eqn:E. cbn [fst snd].
  destruct r as [[|]|e].
  - left. split; [reflexivity|]. exact (proj2 (check_pre_trade_true _ _ _ _ _ E)).
  - right. split; [congruence|]. apply (check_pre_trade_other _ _ _ _ _ _ E). congruence.
  - right. split; [congruence|]. apply (check_pre_trade_other _ _ _ _ _ _ E). congruence.
Qed.

Lemma update_post_trade_close_eq (pnl : Q) (s : RiskSentinel) :
  update_post_trade_close pnl s =
  let p := current_pnl s + pnl in
  let s1 := with_counts (Z.max 0 (open_trades s - 1)) (trades_today s)
              (with_pnl p (if Qle_bool p (peak_equity s) then peak_equity s else p) s) in
  (Ok tt, if Qle_bool p (- cfg_max_daily_loss (config s))
          then with_config (cfg_set_kill_switch true (config s)) s1 else s1).
Proof.
  unfold update_post_trade_close, bind, get, put. cbn.
  destruct (Qle_bool _ _); reflexivity.
Qed.

Lemma run_sentinel_preserves (P : RiskSentinel -> Prop) (ok : SentinelOp -> bool)
    (ops : list SentinelOp) (s : RiskSentinel) :
  (forall op s, ok op = true -> P s -> P (snd (run_op op s))) ->
  forallb ok ops = true -> P s -> P (snd (run_sentinel ops s)).
Proof.
  intros Step. revert s. induction ops as [|op rest IH]; intros s Hok Hs; [exact Hs|].
  cbn in Hok. apply andb_prop in Hok as [H1 H2].
  cbn. pose proof (Step op s H1 Hs) as Hs1.
  destruct (run_op op s) as [r s1]. specialize (IH s1 H2 Hs1).
  destruct (run_sentinel rest s1) as [rs s2]. exact IH.
Qed.

(** X2: a slot reserved by an admitting [check_pre_trade] and released
    by [rollback_slot] leaves the sentinel exactly as it was (counters
    non-negative to start with). *)
Theorem X2_check_then_rollback_restores (sym : string) (q : Z) (v : Q) (s s1 : RiskSentinel) :
  (0 <= open_trades s)%Z -> (0 <= trades_today s)%Z ->
  check_pre_trade sym q v s = (Ok true, s1) ->
  snd (rollback_slot s1) = s.
Proof.
  intros Ho Ht E. destruct (check_pre_trade_true _ _ _ _ _ E) as [_ ->].
  cbn. destruct s as [c p o t pk]; cbn in *.
  unfold with_counts; cbn. f_equal; lia.
Qed.

Lemma X2_check_then_rollback_restores_witness :
  check_pre_trade "REL" 10 1000 (RiskSentinel_new (models_config 3))
    = (Ok true, with_counts 1 1 (RiskSentinel_new (models_config 3))) /\
  snd (rollback_slot (with_counts 1 1 (RiskSentinel_new (models_config 3))))
    = RiskSentinel_new (models_config 3).
Proof.
  split; [reflexivity|].
  apply (X2_check_then_rollback_restores "REL" 10 1000); [cbn; lia|cbn; lia|reflexivity].
Defined.

(** X3: with a sentinel configuration of [app.risk.models] and
    [0 <= open_trades <= max_open_trades], any sequence of
    [check_pre_trade], [update_post_trade_close] and [rollback_slot]
    calls keeps [0 <= open_trades <= max_open_trades] and
    [trades_today >= 0] ([sync_state] may set any broker count). *)
Theorem X3_open_trades_bounded (ops : list SentinelOp) (s : RiskSentinel) (mc : ModelsRiskConfig) :
  config s = RiskModels mc ->
  (0 <= open_trades s <= m_max_open_trades mc)%Z ->
  (0 <= trades_today s)%Z ->
  forallb (fun op => match op with SSync _ => false | _ => true end) ops = true ->
  let s' := snd (run_sentinel ops s) in
  (0 <= open_trades s' <= m_max_open_trades mc)%Z /\ (0 <= trades_today s')%Z.
Proof.
  intros Hc Ho Ht Hops s'.
  set (M := m_max_open_trades mc).
  assert (Inv : exists c, config s' = RiskModels c /\ m_max_open_trades c = M /\
                          (0 <= open_trades s' <= M)%Z /\ (0 <= trades_today s')%Z).
  { apply (run_sentinel_preserves
             (fun s => exists c, config s = RiskModels c /\ m_max_open_trades c = M /\
                                 (0 <= open_trades s <= M)%Z /\ (0 <= trades_today s)%Z)
             (fun op => match op with SSync _ => false | _ => true end));
      [|exact Hops|exists mc; split; [exact Hc|split; [reflexivity|split; assumption]]].
    intros op x Hok (c & Cx & Mc & Ox & Tx).
    destruct op as [sym q v | pnl | | p]; [| | |discriminate].
    - cbn. unfold bind, ret.
      destruct (check_pre_trade_cases sym q v x) as [[F S]|[F S]];
        destruct (check_pre_trade sym q v x) as [r x1] eqn:E; cbn [fst snd] in *.
      + subst r x1. destruct (check_pre_trade_true _ _ _ _ _ E) as [(c' & C' & L) _].
        rewrite Cx in C'. injection C' as <-. exists c. cbn. rewrite Cx.
        repeat split; try lia; assumption.
      + subst x1. destruct r; cbn; (exists c; split; [exact Cx|split; [exact Mc|split; assumption]]).
    - cbn. unfold bind, ret. rewrite update_post_trade_close_eq. cbn.
      destruct (Qle_bool _ _); cbn.
      + destruct (cfg_set_kill_switch_models true (config x) c Cx) as (c' & C' & Mo & _).
        exists c'. cbn. split; [exact C'|split; [rewrite Mo; exact Mc|split; lia]].
      + exists c. cbn. split; [exact Cx|split; [exact Mc|split; lia]].
    - cbn. exists c. split; [exact Cx|split; [exact Mc|split; lia]]. }
  destruct Inv as (c & _ & _ & O & T). split; assumption.
Qed.

Lemma X3_open_trades_bounded_witness :
  let s := RiskSentinel_new (models_config 2) in
  let ops := [SCheck "A" 1 10; SCheck "B" 1 10; SCheck "C" 1 10; SClose (-5); SRollback; SRollback] in
  (0 <= open_trades (snd (run_sentinel ops s)) <= 2)%Z /\
  (0 <= trades_today (snd (run_sentinel ops s)))%Z.
Proof.
  cbv zeta.
  apply (X3_open_trades_bounded _ _
           {| m_max_daily_loss := 1000; m_max_capital_per_trade := 1000000;
              m_max_open_trades := 2; m_max_drawdown_pct := 5 # 100;
              m_kill_switch_active := false |}); [reflexivity|cbn; lia|cbn; lia|reflexivity].
Defined.

(** X4: [peak_equity] is a running maximum: if it is at least
    [current_pnl] to start with, it stays at least [current_pnl] and
    never decreases over any sequence of [check_pre_trade],
    [update_post_trade_close], [rollback_slot] and [sync_state] calls. *)
Theorem X4_peak_equity_running_max (ops : list SentinelOp) (s : RiskSentinel) :
  current_pnl s <= peak_equity s ->
  let s' := snd (run_sentinel ops s) in
  current_pnl s' <= peak_equity s' /\ peak_equity s <= peak_equity s'.
Proof.
  intros H s'.
  apply (run_sentinel_preserves
           (fun x => current_pnl x <= peak_equity x /\ peak_equity s <= peak_equity x)
           (fun _ => true)); [|apply forallb_forall; reflexivity|split; [exact H|apply Qle_refl]].
  intros op x _ [Hx Px]. destruct op as [sym q v | pnl | | [p|]].
  - cbn. unfold bind, ret.
    destruct (check_pre_trade_cases sym q v x) as [[_ S]|[_ S]];
      destruct (check_pre_trade sym q v x) as [r x1]; cbn [snd] in *; subst x1;
      destruct r; cbn; split; assumption.
  - cbn. unfold bind, ret. rewrite update_post_trade_close_eq. cbn.
    set (p := current_pnl x + pnl).
    assert (B : p <= (if Qle_bool p (peak_equity x) then peak_equity x else p) /\
                peak_equity s <= (if Qle_bool p (peak_equity x) then peak_equity x else p)).
    { destruct (Qle_bool p (peak_equity x)) eqn:E.
      - split; [apply Qle_bool_iff; exact E|exact Px].
      - split; [apply Qle_refl|].
        apply Qle_trans with (peak_equity x); [exact Px|].
        apply Qlt_le_weak, Qnot_le_lt. intros L. apply Qle_bool_iff in L. congruence. }
    destruct (Qle_bool p (- cfg_max_daily_loss (config x))); cbn; exact B.
  - cbn. split; assumption.
  - cbn. split; assumption.
  - cbn. split; assumption.
Qed.

Lemma X4_peak_equity_running_max_witness :
  let s := RiskSentinel_new (models_config 3) in
  let ops := [SClose 120; SCheck "A" 1 10; SClose (-300); SSync (Some [1; 0]%Z); SClose 50] in
  current_pnl (snd (run_sentinel ops s)) <= peak_equity (snd (run_sentinel ops s)) /\
  peak_equity s <= peak_equity (snd (run_sentinel ops s)).
Proof.
  cbv zeta. apply X4_peak_equity_running_max. cbn. apply Qle_refl.
Defined.

(** X5: [reset_daily] re-opens trading whatever happened before: with a
    configuration of [app.risk.models] whose [max_daily_loss] is
    positive, a free slot and a value within [max_capital_per_trade],
    [check_pre_trade] after [reset_daily] admits, even if the kill switch
    was on or the loss limit hit; [open_trades] is kept across the reset
    and [trades_today] restarts from 1. *)
Theorem X5_reset_daily_reopens (sym : string) (q : Z) (v : Q) (s : RiskSentinel)
    (mc : ModelsRiskConfig) :
  config s = RiskModels mc ->
  0 < m_max_daily_loss mc ->
  (open_trades s < m_max_open_trades mc)%Z ->
  v <= m_max_capital_per_trade mc ->
  check_pre_trade sym q v (snd (reset_daily s)) =
    (Ok true, with_counts (open_trades s + 1) 1 (snd (reset_daily s))).
Proof.
  intros Hc Hl Ho Hv. rewrite check_pre_trade_eq.
  unfold reset_daily, modify. cbn [snd config with_config current_pnl open_trades trades_today].
  rewrite Hc. cbn.
  assert (L : Qle_bool 0 (- m_max_daily_loss mc) = false).
  { destruct (Qle_bool 0 _) eqn:E; [|reflexivity].
    apply Qle_bool_iff in E. exfalso.
    apply (Qlt_not_le 0 (m_max_daily_loss mc) Hl).
    apply Qopp_le_compat in E. rewrite Qopp_involutive in E. exact E. }
  rewrite L.
  destruct (Z.leb_spec (m_max_open_trades mc) (open_trades s)) as [O|_]; [lia|].
  rewrite (proj2 (Qle_bool_iff _ _) Hv). reflexivity.
Qed.

Lemma X5_reset_daily_reopens_witness :
  let s := {| config := RiskModels {| m_max_daily_loss := 1000; m_max_capital_per_trade := 50000;
                                      m_max_open_trades := 3; m_max_drawdown_pct := 5 # 100;
                                      m_kill_switch_active := true |};
              current_pnl := -1500; open_trades := 2; trades_today := 7; peak_equity := 200 |} in
  fst (check_pre_trade "REL" 10 2500 (snd (reset_daily s))) = Ok true.
Proof.
  cbv zeta.
  rewrite (X5_reset_daily_reopens "REL" 10 2500 _
             {| m_max_daily_loss := 1000; m_max_capital_per_trade := 50000;
                m_max_open_trades := 3; m_max_drawdown_pct := 5 # 100;
                m_kill_switch_active := true |}); [reflexivity|reflexivity| |cbn; lia|].
  - reflexivity.
  - cbn. discriminate.
Defined.

(** *** Risk manager *)

(** X6: [RiskManager.calculate_size] never returns a quantity: whatever
    the manager's state and the inputs, it raises [AttributeError] and
    leaves the manager unchanged: on [max_concurrent_trades] with a
    configuration of [app.risk.models], and otherwise on
    [master_data.get_data], which [MasterDataManager] does not define. *)
Theorem X6_calculate_size_always_raises (net : option Q)
    (symbol : string) (entry sl confidence : Q) (r : RiskManager) :
  calculate_size net symbol entry sl confidence r =
    (match config (sentinel r) with
     | SchemasCommon _ => Raise (AttributeError "MasterDataManager" "get_data")
     | RiskModels _ => Raise (AttributeError "RiskConfig" "max_concurrent_trades")
     end, r).
Proof.
  unfold calculate_size, bind, get, liftE, ret, raise, master_get_data.
  destruct (config (sentinel r)) as [c|c]; cbn; reflexivity.
Qed.

(** *** Position sizer *)

Lemma qabs_nonneg (q : Q) : 0 <= qabs q.
Proof.
  unfold qabs. destruct (Qle_bool 0 q) eqn:E.
  - apply Qle_bool_iff. exact E.
  - assert (L : q <= 0).
    { apply Qlt_le_weak, Qnot_le_lt. intros L. apply Qle_bool_iff in L. congruence. }
    apply Qopp_le_compat in L. exact L.
Qed.

Lemma qmin_le_l (a b : Q) : qmin a b <= a.
Proof.
  unfold qmin. destruct (Qle_bool a b) eqn:E; [apply Qle_refl|].
  apply Qlt_le_weak, Qnot_le_lt. intros L. apply Qle_bool_iff in L. congruence.
Qed.

Lemma qmin_le_r (a b : Q) : qmin a b <= b.
Proof.
  unfold qmin. destruct (Qle_bool a b) eqn:E; [apply Qle_bool_iff; exact E|apply Qle_refl].
Qed.

Lemma qmin_nonneg (a b : Q) : 0 <= a -> 0 <= b -> 0 <= qmin a b.
Proof. intros Ha Hb. unfold qmin. destruct (Qle_bool a b); assumption. Qed.

Lemma Qdiv_nonneg (a b : Q) : 0 <= a -> 0 <= b -> 0 <= a / b.
Proof.
  intros Ha Hb. unfold Qdiv. apply Qmult_le_0_compat; [exact Ha|].
  apply Qinv_le_0_compat. exact Hb.
Qed.

Lemma Qdiv_mul_cancel (x y : Q) : ~ y == 0 -> x / y * y == x.
Proof. intros H. rewrite Qmult_comm. apply Qmult_div_r. exact H. Qed.

Lemma Qle_bool_false (a b : Q) : Qle_bool a b = false -> b < a.
Proof. intros E. apply Qnot_le_lt. intros L. apply Qle_bool_iff in L. congruence. Qed.

(** Rounding down to a whole number of lots. *)
Lemma floor_lot (m : Q) (lot : Z) :
  (1 <= lot)%Z ->
  inject_Z (Qfloor (m / inject_Z lot) * lot) <= m /\
  ((Qfloor (m / inject_Z lot) * lot) mod lot = 0)%Z /\
  (0 <= m -> (0 <= Qfloor (m / inject_Z lot) * lot)%Z).
Proof.
  intros Hl.
  assert (L0 : ~ inject_Z lot == 0).
  { intros E. apply (proj1 (inject_Z_injective lot 0)) in E. lia. }
  assert (L1 : 0 <= inject_Z lot).
  { change 0 with (inject_Z 0). rewrite <- Zle_Qle. lia. }
  split; [|split].
  - rewrite inject_Z_mult.
    apply Qle_trans with (m / inject_Z lot * inject_Z lot).
    + apply Qmult_le_compat_r; [apply Qfloor_le|exact L1].
    + rewrite (Qdiv_mul_cancel m _ L0). apply Qle_refl.
  - apply Z_mod_mult.
  - intros Hm. apply Z.mul_nonneg_nonneg; [|lia].
    change 0%Z with (Qfloor 0). apply Qfloor_resp_le. apply Qdiv_nonneg; assumption.
Qed.

Lemma zero_qty_bounds (x capital a : Q) :
  0 <= capital -> 0 <= a -> inject_Z 0 * x <= capital * a.
Proof.
  intros Hc Ha. change (inject_Z 0) with 0. rewrite Qmult_0_l.
  apply Qmult_le_0_compat; assumption.
Qed.

(** X7: the FIXED_RISK method of [PositionSizer.calculate_qty] (with
    non-negative capital, risk fraction and leverage) returns a
    non-negative whole number of lots whose loss at the stop,
    [qty * |entry - sl|], is at most [capital * risk_per_trade_pct] and
    whose value, [qty * entry], is at most [capital * leverage]. *)
Theorem X7_fixed_risk_bounds (cfg : PositionConfig) (capital entry sl : Q) (lot losses wins q : Z) :
  method cfg = "FIXED_RISK"%string ->
  0 <= capital -> 0 <= pc_risk_per_trade_pct cfg -> 0 <= pc_leverage cfg ->
  calculate_qty_body cfg capital entry sl lot losses wins = Ok q ->
  (0 <= q)%Z /\ (q mod Z.max 1 lot = 0)%Z /\
  inject_Z q * qabs (entry - sl) <= capital * pc_risk_per_trade_pct cfg /\
  inject_Z q * entry <= capital * pc_leverage cfg.
Proof.
  intros Hm Hc Hr Hv H. unfold calculate_qty_body in H.
  destruct (Qle_bool entry 0 || Qle_bool sl 0) eqn:P.
  { injection H as <-. split; [lia|split; [apply Z.mod_0_l; lia|]].
    split; apply zero_qty_bounds; assumption. }
  apply orb_false_iff in P as [Pe Ps]. apply Qle_bool_false in Pe.
  rewrite Hm, String.eqb_refl in H. cbv zeta in H.
  destruct (Qeq_bool (qabs (entry - sl)) 0) eqn:R.
  { injection H as <-. split; [lia|split; [apply Z.mod_0_l; lia|]].
    split; apply zero_qty_bounds; assumption. }
  injection H as <-.
  assert (R0 : ~ qabs (entry - sl) == 0).
  { intros E. apply Qeq_bool_iff in E. congruence. }
  assert (R1 : 0 <= qabs (entry - sl)) by apply qabs_nonneg.
  assert (E0 : ~ entry == 0).
  { intros E. rewrite E in Pe. exact (Qlt_irrefl 0 Pe). }
  set (raw := capital * pc_risk_per_trade_pct cfg / qabs (entry - sl)).
  set (mq := capital * pc_leverage cfg / entry).
  destruct (floor_lot (qmin raw mq) (Z.max 1 lot) ltac:(lia)) as (F1 & F2 & F3).
  split; [|split; [exact F2|split]].
  - apply F3. apply qmin_nonneg; apply Qdiv_nonneg;
      try (apply Qmult_le_0_compat; assumption); [exact R1|apply Qlt_le_weak; exact Pe].
  - apply Qle_trans with (raw * qabs (entry - sl)).
    + apply Qmult_le_compat_r; [|exact R1].
      apply Qle_trans with (qmin raw mq); [exact F1|apply qmin_le_l].
    + unfold raw. rewrite (Qdiv_mul_cancel _ _ R0). apply Qle_refl.
  - apply Qle_trans with (mq * entry).
    + apply Qmult_le_compat_r; [|apply Qlt_le_weak; exact Pe].
      apply Qle_trans with (qmin raw mq); [exact F1|apply qmin_le_r].
    + unfold mq. rewrite (Qdiv_mul_cancel _ _ E0). apply Qle_refl.
Qed.

Lemma X7_fixed_risk_bounds_witness :
  let cfg := {| method := "FIXED_RISK"; pc_risk_per_trade_pct := 1 # 100; pc_leverage := 1 |} in
  calculate_qty_body cfg 100000 250 245 25 0 0 = Ok 200%Z /\
  inject_Z 200 * qabs (250 - 245) <= 100000 * (1 # 100) /\ inject_Z 200 * 250 <= 100000 * 1.
Proof.
  cbv zeta. split; [reflexivity|].
  destruct (X7_fixed_risk_bounds {| method := "FIXED_RISK"; pc_risk_per_trade_pct := 1 # 100;
                                    pc_leverage := 1 |} 100000 250 245 25 0 0 200
              eq_refl ltac:(discriminate) ltac:(discriminate) ltac:(discriminate) eq_refl)
    as (_ & _ & A & B).
  split; [exact A|exact B].
Defined.

Lemma Qle_bool_pos_false (a : Q) : 0 < a -> Qle_bool a 0 = false.
Proof.
  intros H. destruct (Qle_bool a 0) eqn:E; [|reflexivity].
  apply Qle_bool_iff in E. exfalso. exact (Qlt_not_le _ _ H E).
Qed.

Lemma qabs_self_diff_zero (e : Q) : Qeq_bool (qabs (e - e)) 0 = true.
Proof.
  apply Qeq_bool_iff. unfold qabs.
  assert (Z0 : e - e == 0) by (unfold Qminus; apply Qplus_opp_r).
  destruct (Qle_bool 0 (e - e)); [exact Z0|]. rewrite Z0. reflexivity.
Qed.

(** X8: degenerate prices in [calculate_qty]: an entry or a stop-loss
    price at or below zero gives 0 whatever the method; a stop-loss equal
    to a positive entry gives 0 with FIXED_RISK but raises
    [ZeroDivisionError] with MARTINGALE and ANTI_MARTINGALE; a method
    name outside the four known ones always gives 0. *)
Theorem X8_sizer_degenerate_prices (cfg : PositionConfig) (capital entry sl : Q)
    (lot losses wins : Z) :
  ((entry <= 0 \/ sl <= 0) ->
     calculate_qty_body cfg capital entry sl lot losses wins = Ok 0%Z) /\
  (0 < entry ->
     (method cfg = "FIXED_RISK"%string ->
        calculate_qty_body cfg capital entry entry lot losses wins = Ok 0%Z) /\
     (method cfg = "MARTINGALE"%string \/ method cfg = "ANTI_MARTINGALE"%string ->
        calculate_qty_body cfg capital entry entry lot losses wins
          = Raise (PyException "ZeroDivisionError"))) /\
  (~ In (method cfg) ["FIXED_RISK"; "FIXED_CAPITAL"; "MARTINGALE"; "ANTI_MARTINGALE"]%string ->
     calculate_qty_body cfg capital entry sl lot losses wins = Ok 0%Z).
Proof.
  split; [|split].
  - intros Hp. unfold calculate_qty_body.
    assert (P : (Qle_bool entry 0 || Qle_bool sl 0) = true).
    { apply orb_true_iff. destruct Hp as [H|H]; [left|right]; apply Qle_bool_iff; exact H. }
    rewrite P. reflexivity.
  - intros He.
    assert (P : (Qle_bool entry 0 || Qle_bool entry 0) = false)
      by (rewrite (Qle_bool_pos_false _ He); reflexivity).
    split.
    + intros Hm. unfold calculate_qty_body. rewrite P, Hm, String.eqb_refl. cbv zeta.
      rewrite qabs_self_diff_zero. reflexivity.
    + intros [Hm|Hm]; unfold calculate_qty_body; rewrite P, Hm; cbv zeta; simpl String.eqb;
        unfold qdiv; rewrite qabs_self_diff_zero; reflexivity.
  - intros Hm. unfold calculate_qty_body.
    destruct (Qle_bool entry 0 || Qle_bool sl 0); [reflexivity|]. cbv zeta.
    assert (N : forall x, In x ["FIXED_RISK"; "FIXED_CAPITAL"; "MARTINGALE"; "ANTI_MARTINGALE"]%string ->
                          String.eqb (method cfg) x = false).
    { intros x Hx. apply String.eqb_neq. intros E. apply Hm. rewrite E. exact Hx. }
    rewrite (N "FIXED_RISK"%string), (N "FIXED_CAPITAL"%string), (N "MARTINGALE"%string),
      (N "ANTI_MARTINGALE"%string); cbn; tauto.
Qed.

Lemma X8_sizer_degenerate_prices_witness :
  calculate_qty_body {| method := "MARTINGALE"; pc_risk_per_trade_pct := 1 # 100;
                        pc_leverage := 1 |} 100000 100 100 1 1 0
    = Raise (PyException "ZeroDivisionError").
Proof.
  apply (proj2 (proj1 (proj2 (X8_sizer_degenerate_prices
            {| method := "MARTINGALE"; pc_risk_per_trade_pct := 1 # 100; pc_leverage := 1 |}
            100000 100 0 1 1 0)) ltac:(reflexivity))).
  left. reflexivity.
Defined.

(** X9: the streak adjustments saturate: with MARTINGALE every loss
    streak of 2 or more sizes like a streak of 2 (the multiplier is capped
    at 4); with ANTI_MARTINGALE every win streak of 6 or more sizes like a
    streak of 6 (the bonus is capped at 3%). *)
Theorem X9_streak_caps (cfg : PositionConfig) (capital entry sl : Q) (lot losses wins : Z) :
  (method cfg = "MARTINGALE"%string -> (2 <= losses)%Z ->
     calculate_qty_body cfg capital entry sl lot losses wins
     = calculate_qty_body cfg capital entry sl lot 2 wins) /\
  (method cfg = "ANTI_MARTINGALE"%string -> (6 <= wins)%Z ->
     calculate_qty_body cfg capital entry sl lot losses wins
     = calculate_qty_body cfg capital entry sl lot losses 6).
Proof.
  split.
  - intros Hm Hl. unfold calculate_qty_body.
    destruct (Qle_bool entry 0 || Qle_bool sl 0); [reflexivity|]. cbv zeta.
    rewrite Hm. simpl String.eqb. cbv iota.
    assert (M : Z.min (2 ^ losses) 4 = 4%Z).
    { pose proof (Z.pow_le_mono_r 2 2 losses ltac:(lia) Hl). cbn in H. lia. }
    rewrite M. reflexivity.
  - intros Hm Hw. unfold calculate_qty_body.
    destruct (Qle_bool entry 0 || Qle_bool sl 0); [reflexivity|]. cbv zeta.
    rewrite Hm. simpl String.eqb. cbv iota.
    assert (B : qmin (inject_Z wins * (5 # 1000)) (3 # 100) ==
                qmin (inject_Z 6 * (5 # 1000)) (3 # 100)).
    { assert (B6 : qmin (inject_Z 6 * (5 # 1000)) (3 # 100) == 3 # 100) by reflexivity.
      rewrite B6. unfold qmin. destruct (Qle_bool _ _) eqn:E; [|reflexivity].
      apply Qle_bool_iff in E. apply Qle_antisym; [exact E|].
      unfold Qle, Qmult, inject_Z; cbn. lia. }
    unfold qdiv. destruct (Qeq_bool (qabs (entry - sl)) 0); [reflexivity|].
    f_equal. f_equal. apply Qfloor_comp. rewrite B. reflexivity.
Qed.

Lemma X9_streak_caps_witness :
  calculate_qty_body {| method := "MARTINGALE"; pc_risk_per_trade_pct := 1 # 100;
                        pc_leverage := 1 |} 100000 100 98 1 7 0
  = calculate_qty_body {| method := "MARTINGALE"; pc_risk_per_trade_pct := 1 # 100;
                          pc_leverage := 1 |} 100000 100 98 1 2 0.
Proof.
  apply (proj1 (X9_streak_caps {| method := "MARTINGALE"; pc_risk_per_trade_pct := 1 # 100;
                                  pc_leverage := 1 |} 100000 100 98 1 7 0)); [reflexivity|lia].
Defined.

(** X10: the FIXED_CAPITAL method of [calculate_qty] (non-negative
    capital) returns a non-negative whole number of lots whose value
    [qty * entry] is at most a quarter of the capital. *)
Theorem X10_fixed_capital_bounds (cfg : PositionConfig) (capital entry sl : Q) (lot losses wins q : Z) :
  method cfg = "FIXED_CAPITAL"%string -> 0 <= capital ->
  calculate_qty_body cfg capital entry sl lot losses wins = Ok q ->
  (0 <= q)%Z /\ (q mod Z.max 1 lot = 0)%Z /\ inject_Z q * entry <= capital * (1 # 4).
Proof.
  intros Hm Hc H. unfold calculate_qty_body in H.
  destruct (Qle_bool entry 0 || Qle_bool sl 0) eqn:P.
  { injection H as <-. split; [lia|split; [apply Z.mod_0_l; lia|]].
    apply zero_qty_bounds; [exact Hc|discriminate]. }
  apply orb_false_iff in P as [Pe _]. apply Qle_bool_false in Pe.
  rewrite Hm in H. simpl String.eqb in H. cbv zeta iota in H. injection H as <-.
  assert (E0 : ~ entry == 0).
  { intros E. rewrite E in Pe. exact (Qlt_irrefl 0 Pe). }
  destruct (floor_lot (capital * (1 # 4) / entry) (Z.max 1 lot) ltac:(lia)) as (F1 & F2 & F3).
  split; [|split; [exact F2|]].
  - apply F3. apply Qdiv_nonneg; [apply Qmult_le_0_compat; [exact Hc|discriminate]|].
    apply Qlt_le_weak. exact Pe.
  - apply Qle_trans with (capital * (1 # 4) / entry * entry).
    + apply Qmult_le_compat_r; [exact F1|apply Qlt_le_weak; exact Pe].
    + rewrite (Qdiv_mul_cancel _ _ E0). apply Qle_refl.
Qed.

Lemma X10_fixed_capital_bounds_witness :
  calculate_qty_body {| method := "FIXED_CAPITAL"; pc_risk_per_trade_pct := 1 # 100;
                        pc_leverage := 1 |} 100000 300 290 50 0 0 = Ok 50%Z /\
  inject_Z 50 * 300 <= 100000 * (1 # 4).
Proof.
  split; [reflexivity|].
  exact (proj2 (proj2 (X10_fixed_capital_bounds
           {| method := "FIXED_CAPITAL"; pc_risk_per_trade_pct := 1 # 100; pc_leverage := 1 |}
           100000 300 290 50 0 0 50 eq_refl ltac:(discriminate) eq_refl))).
Defined.

(** *** Execution engine *)

Lemma set_rm_same (w : World) : set_rm (rm w) w = w.
Proof. destruct w; reflexivity. Qed.

Lemma send_single_order_spec (symbol token side : string) (qty : Z) (price : Q) (tag : string)
    (w : World) :
  snd (send_single_order symbol token side qty price tag w)
    = set_broker (tl (broker_script w))
        (sent w ++ [{| op_symbol := symbol; op_token := token;
                       op_side := if String.eqb (str_upper side) "BUY" then "B"%string else "S"%string;
                       op_qty := qty; op_price := price;
                       op_order_type := if Qle_bool price 0 then "MKT"%string else "L"%string;
                       op_tag := tag |}]) w /\
  (forall r, fst (send_single_order symbol token side qty price tag w) = Ok r ->
     status r = COMPLETE /\ filled_qty r = qty /\ average_price r = price /\
     error_message r = None).
Proof.
  cbv beta iota zeta delta [send_single_order try_except bind place_order get put ret raise
                            on_risk lift on_execution_failure sentinel_getattr].
  destruct (broker_script w) as [|[st n em|msg] rest]; cbn.
  - split; [reflexivity|discriminate].
  - destruct (match st with Some s => String.eqb s "Ok" | None => false end
              || match n with Some _ => true | None => false end); cbn.
    + split; [reflexivity|]. intros r E. injection E as <-. repeat split.
    + split; [reflexivity|discriminate].
  - split; [reflexivity|discriminate].
Qed.

(** X11: [_send_single_order] makes exactly one [place_order] call, with
    side B when [side.upper()] is BUY and S otherwise, and the order type
    MKT for a price at or below
    zero, L otherwise, whatever the broker answers, and touches nothing
    else (risk manager, strategy, clock); an answer it returns is always
    COMPLETE with the full quantity at the given price: a rejection or a
    broker exception never comes back as REJECTED or FAILED. *)
Theorem X11_send_single_order_one_call (symbol token side : string) (qty : Z) (price : Q)
    (tag : string) (w : World) :
  let w' := snd (send_single_order symbol token side qty price tag w) in
  sent w' = sent w ++ [{| op_symbol := symbol; op_token := token;
                          op_side := if String.eqb (str_upper side) "BUY" then "B"%string else "S"%string;
                          op_qty := qty; op_price := price;
                          op_order_type := if Qle_bool price 0 then "MKT"%string else "L"%string;
                          op_tag := tag |}] /\
  broker_script w' = tl (broker_script w) /\
  rm w' = rm w /\ strat w' = strat w /\ clock w' = clock w /\
  (forall r, fst (send_single_order symbol token side qty price tag w) = Ok r ->
     status r = COMPLETE /\ filled_qty r = qty /\ average_price r = price /\
     error_message r = None).
Proof.
  intros w'. destruct (send_single_order_spec symbol token side qty price tag w) as [S R].
  unfold w'. rewrite S. cbn.
  split; [reflexivity|split; [reflexivity|split; [reflexivity|split; [reflexivity|split; [reflexivity|exact R]]]]].
Qed.

Lemma min_step (rem f : Z) (n : nat) :
  (0 < f)%Z -> (0 <= rem)%Z ->
  (Z.min rem f + Z.min (rem - Z.min rem f) (Z.of_nat n * f))%Z = Z.min rem (Z.of_nat (S n) * f).
Proof.
  intros Hf Hr. rewrite Nat2Z.inj_succ, Z.mul_succ_l.
  assert (0 <= Z.of_nat n * f)%Z by (apply Z.mul_nonneg_nonneg; lia).
  lia.
Qed.

Lemma iceberg_legs_spec (symbol token side : string) (price : Q) (f : Z) (tag : string) (n : nat) :
  forall (i rem filled : Z) (ids errs : list string) (w w' : World) (fl : Z)
         (ids' errs' : list string),
  (0 < f)%Z -> (0 <= rem)%Z ->
  iceberg_legs n i symbol token side price f tag rem filled ids errs w = (Ok (fl, ids', errs'), w') ->
  fl = (filled + Z.min rem (Z.of_nat n * f))%Z /\ errs' = errs /\
  rm w' = rm w /\ strat w' = strat w /\
  exists legs, sent w' = sent w ++ legs /\ Forall (fun p => (op_qty p <= f)%Z) legs /\
               fold_right Z.add 0%Z (map op_qty legs) = Z.min rem (Z.of_nat n * f).
Proof.
  induction n as [|n IH]; intros i rem filled ids errs w w' fl ids' errs' Hf Hr H.
  - cbn in H. injection H as <- <- <- <-. cbn.
    split; [lia|]. split; [reflexivity|]. repeat split.
    exists []. rewrite app_nil_r. split; [reflexivity|]. split; [constructor|]. cbn. lia.
  - cbn [iceberg_legs] in H. unfold bind at 1 in H.
    destruct (send_single_order_spec symbol token side (Z.min rem f) price
                (tag ++ "_ICE_" ++ str_of_Z (i + 1))%string w) as [S R].
    destruct (send_single_order symbol token side (Z.min rem f) price
                (tag ++ "_ICE_" ++ str_of_Z (i + 1))%string w) as [[r1|e] w1] eqn:E;
      [|discriminate].
    cbn [fst snd] in S, R. destruct (R r1 eq_refl) as (St & _ & _ & _).
    rewrite St in H. cbn [OrderStatus_eqb] in H.
    unfold sleep_us, modify, bind in H.
    apply IH in H; [|exact Hf|lia].
    destruct H as (Fl & Er & Rm & Sg & legs & Snt & Fa & Sum).
    subst w1. cbn in Rm, Sg, Snt.
    split; [rewrite Fl, <- (min_step rem f n Hf Hr); lia|].
    split; [exact Er|]. split; [exact Rm|]. split; [exact Sg|].
    eexists (_ :: legs). split; [rewrite Snt, <- app_assoc; reflexivity|].
    split; [constructor; [cbn; lia|exact Fa]|].
    cbn [map fold_right op_qty]. rewrite Sum. apply min_step; assumption.
Qed.

Lemma ceiling_covers (total f : Z) :
  (0 < f)%Z -> (0 < total)%Z ->
  (0 < Qceiling (inject_Z total / inject_Z f))%Z /\
  (total <= Qceiling (inject_Z total / inject_Z f) * f)%Z.
Proof.
  intros Hf Ht. set (c := Qceiling (inject_Z total / inject_Z f)).
  assert (F0 : ~ inject_Z f == 0).
  { intros E. apply (proj1 (inject_Z_injective f 0)) in E. lia. }
  assert (Le : inject_Z total <= inject_Z (c * f)).
  { rewrite inject_Z_mult.
    apply Qle_trans with (inject_Z total / inject_Z f * inject_Z f).
    - rewrite (Qdiv_mul_cancel _ _ F0). apply Qle_refl.
    - apply Qmult_le_compat_r; [apply Qle_ceiling|].
      change 0 with (inject_Z 0). rewrite <- Zle_Qle. lia. }
  rewrite <- Zle_Qle in Le. split; [|exact Le]. nia.
Qed.

Lemma execute_iceberg_spec (symbol token side : string) (total : Z) (price : Q)
    (f : Z) (tag : string) (w w' : World) (r : OrderResponse) :
  (0 < f)%Z -> (0 < total)%Z ->
  execute_iceberg symbol token side total price f tag w = (Ok r, w') ->
  status r = COMPLETE /\ filled_qty r = total /\ error_message r = None /\
  rm w' = rm w /\ strat w' = strat w /\
  exists legs, sent w' = sent w ++ legs /\ Forall (fun p => (op_qty p <= f)%Z) legs /\
               fold_right Z.add 0%Z (map op_qty legs) = total.
Proof.
  intros Hf Ht H.
  assert (F0 : Qeq_bool (inject_Z f) 0 = false).
  { apply not_true_iff_false. intros E. apply Qeq_bool_eq in E.
    apply (proj1 (inject_Z_injective f 0)) in E. lia. }
  unfold execute_iceberg, liftE, qdiv in H. rewrite F0 in H.
  unfold bind at 1, ret at 1 in H. unfold bind in H.
  destruct (ceiling_covers total f Hf Ht) as [C1 C2].
  destruct (iceberg_legs _ 0 symbol token side price f tag total 0 [] [] w)
    as [[[[fl ids'] errs']|e] w1] eqn:E; [|discriminate].
  apply iceberg_legs_spec in E; [|exact Hf|lia].
  destruct E as (Fl & Er & Rm & Sg & legs & Snt & Fa & Sum).
  rewrite Z2Nat.id in Fl, Sum by lia.
  assert (M : Z.min total (Qceiling (inject_Z total / inject_Z f) * f) = total) by lia.
  rewrite M in Fl, Sum. subst fl errs'.
  unfold ret in H. injection H as <- <-. cbn.
  assert (T0 : (total =? 0)%Z = false) by (apply Z.eqb_neq; lia).
  rewrite T0, Z.eqb_refl.
  split; [reflexivity|]. split; [lia|]. split; [reflexivity|]. split; [exact Rm|]. split; [exact Sg|].
  exists legs. split; [exact Snt|]. split; [exact Fa|]. exact Sum.
Qed.

(** X12: with a positive freeze limit and a positive total,
    [_execute_iceberg] sends legs of at most the freeze limit whose
    quantities add up to the total, and any answer it returns is COMPLETE
    with the whole total filled and no error: the PARTIAL and FAILED
    outcomes of its report are never returned (a failing leg raises). The
    risk manager is not touched. *)
Theorem X12_iceberg_complete_or_raise (symbol token side : string) (total : Z) (price : Q)
    (f : Z) (tag : string) (w w' : World) (r : OrderResponse) :
  (0 < f)%Z -> (0 < total)%Z ->
  execute_iceberg symbol token side total price f tag w = (Ok r, w') ->
  status r = COMPLETE /\ filled_qty r = total /\ error_message r = None /\
  rm w' = rm w /\
  exists legs, sent w' = sent w ++ legs /\ Forall (fun p => (op_qty p <= f)%Z) legs /\
               fold_right Z.add 0%Z (map op_qty legs) = total.
Proof.
  intros Hf Ht H.
  destruct (execute_iceberg_spec symbol token side total price f tag w w' r Hf Ht H)
    as (St & Fl & Em & Rm & _ & L).
  split; [exact St|split; [exact Fl|split; [exact Em|split; [exact Rm|exact L]]]].
Qed.

Lemma X12_iceberg_complete_or_raise_witness :
  let w := world_with (models_config 3) 0 0 [broker_ok; broker_ok; broker_ok] in
  let res := execute_iceberg "REL" "123" "BUY" 250 0 100 "S" w in
  fst res = Ok {| order_id := "1001,1001,1001"; status := COMPLETE; filled_qty := 250;
                  average_price := 0; error_message := None |} /\
  filled_qty {| order_id := "1001,1001,1001"; status := COMPLETE; filled_qty := 250;
                average_price := 0; error_message := None |} = 250%Z.
Proof.
  cbv zeta. split; [vm_compute; reflexivity|].
  refine (proj1 (proj2 (X12_iceberg_complete_or_raise "REL" "123" "BUY" 250 0 100 "S"
            (world_with (models_config 3) 0 0 [broker_ok; broker_ok; broker_ok])
            (snd (execute_iceberg "REL" "123" "BUY" 250 0 100 "S"
                    (world_with (models_config 3) 0 0 [broker_ok; broker_ok; broker_ok])))
            _ _ _ _))).
  - lia.
  - lia.
  - vm_compute. reflexivity.
Defined.

Lemma set_sentinel_same (r : RiskManager) : set_sentinel (sentinel r) r = r.
Proof. destruct r; reflexivity. Qed.

Lemma can_trade_cases (sym : string) (q : Z) (p : Q) (r : RiskManager) :
  (fst (can_trade sym q p r) = Ok true /\
   snd (can_trade sym q p r) =
     set_sentinel (with_counts (open_trades (sentinel r) + 1) (trades_today (sentinel r) + 1)
                               (sentinel r)) r) \/
  (fst (can_trade sym q p r) <> Ok true /\ snd (can_trade sym q p r) = r).
Proof.
  unfold can_trade, bind, get, ret. destruct (is_initialized r); cbn.
  - unfold on_sentinel, lift.
    destruct (check_pre_trade_cases sym q (inject_Z q * p) (sentinel r)) as [[F S]|[F S]];
      destruct (check_pre_trade sym q (inject_Z q * p) (sentinel r)) as [res s'];
      cbn [fst snd] in *; subst s'.
    + left. split; [exact F|reflexivity].
    + right. split; [exact F|apply set_sentinel_same].
  - right. split; [discriminate|reflexivity].
Qed.

Lemma check_pre_trade_exn (sym : string) (q : Z) (v : Q) (s : RiskSentinel) (e : exn) :
  fst (check_pre_trade sym q v s) = Raise e -> exists a, e = AttributeError "RiskConfig" a.
Proof.
  unfold check_pre_trade, liftE, bind, get, ret, put, raise.
  destruct (cfg_kill_switch_active (config s)); [discriminate|].
  destruct (Qle_bool _ _); [discriminate|].
  unfold cfg_max_open_trades, cfg_max_capital_per_trade.
  destruct (config s) as [c|c]; cbn [fst].
  all: repeat match goal with
              | |- context [if ?b then _ else _] => destruct b
              end; cbn [fst].
  all: first [discriminate | intros E; injection E as <-; eexists; reflexivity].
Qed.

Lemma can_trade_exn (sym : string) (q : Z) (p : Q) (r : RiskManager) (e : exn) :
  fst (can_trade sym q p r) = Raise e -> exists a, e = AttributeError "RiskConfig" a.
Proof.
  unfold can_trade, bind, get, ret. destruct (is_initialized r); cbn [negb]; [|discriminate].
  unfold on_sentinel, lift.
  destruct (check_pre_trade sym q (inject_Z q * p) (sentinel r)) as [res s'] eqn:E.
  cbn [fst]. intros R. subst res. apply (check_pre_trade_exn sym q (inject_Z q * p) (sentinel r)).
  rewrite E. reflexivity.
Qed.

Lemma execute_order_spec (symbol token side : string) (quantity : Z) (price : Q) (tag : string)
    (w : World) :
  (fst (execute_order symbol token side quantity price tag w) = Ok None /\
   snd (execute_order symbol token side quantity price tag w) = w) \/
  ((exists a, fst (execute_order symbol token side quantity price tag w)
                = Raise (AttributeError "RiskConfig" a)) /\
   snd (execute_order symbol token side quantity price tag w) = w) \/
  (fst (execute_order symbol token side quantity price tag w)
     = Raise (AttributeError "MasterDataManager" "get_data") /\
   snd (execute_order symbol token side quantity price tag w)
     = set_rm (set_sentinel (with_counts (open_trades (sentinel (rm w)) + 1)
                                         (trades_today (sentinel (rm w)) + 1)
                                         (sentinel (rm w))) (rm w)) w).
Proof.
  destruct (execute_order symbol token side quantity price tag w) as [res w'] eqn:H.
  cbn [fst snd]. unfold execute_order, bind at 1, on_risk, lift in H.
  pose proof (can_trade_exn symbol quantity price (rm w)) as X.
  destruct (can_trade_cases symbol quantity price (rm w)) as [[F S]|[F S]];
    destruct (can_trade symbol quantity price (rm w)) as [ok r1]; cbn [fst snd] in F, S, X;
    subst r1.
  - subst ok. injection H as <- <-. right; right. split; reflexivity.
  - destruct ok as [[|]|e]; [congruence| |].
    + injection H as <- <-. left. rewrite set_rm_same. split; reflexivity.
    + injection H as <- <-. right; left. rewrite set_rm_same.
      destruct (X e eq_refl) as [a ->]. split; [exists a|]; reflexivity.
Qed.

(** X13: [ExecutionEngine.execute_order] never sends an order and never
    returns an answer.  Either the risk check refuses ([None], world
    unchanged), or [can_trade] raises the configuration's
    [AttributeError] (world unchanged), or [can_trade] reserves a slot
    and the next line, [master_data.get_data], raises [AttributeError]
    because [MasterDataManager] has no such method: the slot stays
    reserved ([open_trades] and [trades_today] up by one) and nothing
    reaches the broker. *)
Theorem X13_execute_order_never_sends (symbol token side : string) (quantity : Z) (price : Q)
    (tag : string) (w : World) :
  (fst (execute_order symbol token side quantity price tag w) = Ok None /\
   snd (execute_order symbol token side quantity price tag w) = w) \/
  ((exists a, fst (execute_order symbol token side quantity price tag w)
                = Raise (AttributeError "RiskConfig" a)) /\
   snd (execute_order symbol token side quantity price tag w) = w) \/
  (fst (execute_order symbol token side quantity price tag w)
     = Raise (AttributeError "MasterDataManager" "get_data") /\
   snd (execute_order symbol token side quantity price tag w)
     = set_rm (set_sentinel (with_counts (open_trades (sentinel (rm w)) + 1)
                                         (trades_today (sentinel (rm w)) + 1)
                                         (sentinel (rm w))) (rm w)) w).
Proof. exact (execute_order_spec symbol token side quantity price tag w). Qed.

(** *** Strategy order paths *)

Lemma strategy_execute_spec (side : string) (qty : Z) (price : Q) (tag : string) (w : World) :
  (fst (strategy_execute side qty price tag w) = Ok None /\
   snd (strategy_execute side qty price tag w) = w) \/
  ((exists a, fst (strategy_execute side qty price tag w)
                = Raise (AttributeError "RiskConfig" a)) /\
   snd (strategy_execute side qty price tag w) = w) \/
  (fst (strategy_execute side qty price tag w)
     = Raise (AttributeError "MasterDataManager" "get_data") /\
   snd (strategy_execute side qty price tag w)
     = set_rm (set_sentinel (with_counts (open_trades (sentinel (rm w)) + 1)
                                         (trades_today (sentinel (rm w)) + 1)
                                         (sentinel (rm w))) (rm w)) w).
Proof.
  destruct (strategy_execute side qty price tag w) as [res w'] eqn:H.
  cbn [fst snd]. unfold strategy_execute, bind at 1, get at 1 in H.
  destruct (match last_trade_time (strat w) with
            | Some t => (td_seconds (clock w - t) <? 1)%Z
            | None => false end).
  - injection H as <- <-. left. split; reflexivity.
  - unfold bind at 1 in H.
    destruct (execute_order_spec (s_symbol (strat w)) (s_token (strat w)) side qty price tag w)
      as [[F S]|[[[a F] S]|[F S]]];
      destruct (execute_order (s_symbol (strat w)) (s_token (strat w)) side qty price tag w)
        as [res1 w1];
      cbn [fst snd] in F, S; subst res1 w1.
    + injection H as <- <-. left. split; reflexivity.
    + injection H as <- <-. right; left. split; [exists a|]; reflexivity.
    + injection H as <- <-. right; right. split; reflexivity.
Qed.

(** X14: [BaseStrategy._execute] never reaches its fill branch: it
    returns [None] or raises, so the strategy's [position],
    [avg_price] and [last_trade_time] are never updated and no order is
    sent to the broker. *)
Theorem X14_execute_never_fills (side : string) (qty : Z) (price : Q) (tag : string)
    (w : World) :
  (fst (strategy_execute side qty price tag w) = Ok None \/
   exists e, fst (strategy_execute side qty price tag w) = Raise e) /\
  strat (snd (strategy_execute side qty price tag w)) = strat w /\
  sent (snd (strategy_execute side qty price tag w)) = sent w.
Proof.
  destruct (strategy_execute_spec side qty price tag w) as [[F S]|[[[a F] S]|[F S]]];
    rewrite F, S.
  - split; [left; reflexivity|split; reflexivity].
  - split; [right; eexists; reflexivity|split; reflexivity].
  - split; [right; eexists; reflexivity|split; reflexivity].
Qed.

(** X15: an entry from a flat position ([buy] or [sell] with an explicit
    positive quantity) that gets as far as [master_data.get_data] has
    taken two risk slots: [can_trade] runs once in [buy]/[sell] and once
    more in [execute_order], so [open_trades] and [trades_today] each
    rise by 2, while no order is sent and the strategy is unchanged. *)
Theorem X15_entry_reserves_two_slots (price sl : Q) (q : Z) (conf : Q) (tag : string)
    (w w' : World) :
  position (strat w) = 0%Z -> (0 < q)%Z ->
  (buy price sl (Some q) conf tag w = (Raise (AttributeError "MasterDataManager" "get_data"), w') \/
   sell price sl (Some q) conf tag w = (Raise (AttributeError "MasterDataManager" "get_data"), w')) ->
  open_trades (sentinel (rm w')) = (open_trades (sentinel (rm w)) + 2)%Z /\
  trades_today (sentinel (rm w')) = (trades_today (sentinel (rm w)) + 2)%Z /\
  strat w' = strat w /\ sent w' = sent w.
Proof.
  intros Hp Hq Hor.
  assert (G : forall side exit_tag,
             strategy_order side exit_tag price sl (Some q) conf tag w
               = (Raise (AttributeError "MasterDataManager" "get_data"), w') ->
             open_trades (sentinel (rm w')) = (open_trades (sentinel (rm w)) + 2)%Z /\
             trades_today (sentinel (rm w')) = (trades_today (sentinel (rm w)) + 2)%Z /\
             strat w' = strat w /\ sent w' = sent w).
  { intros side exit_tag H. unfold strategy_order, bind at 1, get at 1 in H.
    rewrite Hp in H.
    assert (X : (if String.eqb side "BUY" then (0 <? 0)%Z else (0 <? 0)%Z) = false)
      by (destruct (String.eqb side "BUY"); reflexivity).
    rewrite X in H. cbv beta iota zeta delta [bind ret] in H.
    assert (Q0 : (q <=? 0)%Z = false) by (apply Z.leb_gt; lia).
    rewrite Q0 in H.
    assert (E : (Z.abs 0 <? (if String.eqb side "BUY" then Z.abs (0 + q) else Z.abs (0 - q)))%Z
                = true) by (destruct (String.eqb side "BUY"); apply Z.ltb_lt; lia).
    cbn [andb] in H. rewrite E in H. unfold on_risk, lift in H.
    pose proof (can_trade_exn (s_symbol (strat w)) q price (rm w)) as Xe.
    destruct (can_trade_cases (s_symbol (strat w)) q price (rm w)) as [[F S]|[F S]];
      destruct (can_trade (s_symbol (strat w)) q price (rm w)) as [ok r1];
      cbn [fst snd] in F, S, Xe; subst r1.
    - subst ok. cbv beta iota in H. cbn [negb] in H.
      match type of H with strategy_execute ?sd ?qq ?pp ?tt ?w1 = _ =>
        destruct (strategy_execute_spec sd qq pp tt w1) as [[F S]|[[[a F] S]|[F S]]] end;
        rewrite H in F, S; cbn [fst snd] in F, S; [discriminate|congruence|].
      subst w'. cbn. split; [lia|split; [lia|split; reflexivity]].
    - destruct ok as [[|]|e]; [congruence| |].
      + cbv beta iota in H. cbn [negb] in H. discriminate.
      + cbv beta iota in H. injection H as He _.
        destruct (Xe e eq_refl) as [a Ea]. congruence. }
  destruct Hor as [H|H]; unfold buy, sell in H; exact (G _ _ H).
Qed.

Lemma X15_entry_reserves_two_slots_witness :
  let w := world_with (models_config 3) 0 0 [broker_ok] in
  fst (buy 100 95 (Some 10%Z) 1 "ENTRY" w) = Raise (AttributeError "MasterDataManager" "get_data") /\
  open_trades (sentinel (rm (snd (buy 100 95 (Some 10%Z) 1 "ENTRY" w)))) = 2%Z /\
  sent (snd (buy 100 95 (Some 10%Z) 1 "ENTRY" w)) = [].
Proof.
  cbv zeta. split; [vm_compute; reflexivity|].
  destruct (X15_entry_reserves_two_slots 100 95 10 1 "ENTRY"
            (world_with (models_config 3) 0 0 [broker_ok])
            (snd (buy 100 95 (Some 10%Z) 1 "ENTRY" (world_with (models_config 3) 0 0 [broker_ok])))
            eq_refl ltac:(lia) ltac:(left; vm_compute; reflexivity))
    as (Op & _ & _ & Sn).
  split; [rewrite Op; reflexivity|rewrite Sn; reflexivity].
Defined.

Lemma sync_rows_find (rows : list PositionRow) (s : Strategy) :
  sync_rows rows s =
  match find (fun p => String.eqb (instrumentToken p) (s_token s) ||
                       String.eqb (instrumentName p) (s_symbol s)) rows with
  | Some p => if negb (netQty p =? 0)%Z then (true, with_position (netQty p) (avgPrice p) s)
              else (false, s)
  | None => (false, s)
  end.
Proof.
  induction rows as [|p rest IH]; [reflexivity|].
  cbn. destruct (String.eqb _ _ || String.eqb _ _); [reflexivity|exact IH].
Qed.

(** X16: [sync_position], logged in and given a non-empty position list,
    takes the first row whose token or symbol matches the strategy's and
    ignores every later one: the position becomes that row's [netQty] (and
    [avg_price] its [avgPrice]) when it is non-zero, and 0 (with
    [avg_price] kept) when that row is flat or no row matches; when not
    logged in, when the call fails or when the list is empty nothing
    changes. *)
Theorem X16_sync_position_first_match (logged : bool) (resp : option (list PositionRow))
    (s : Strategy) :
  sync_position logged resp s =
  match logged, resp with
  | true, Some ((_ :: _) as data) =>
      match find (fun p => String.eqb (instrumentToken p) (s_token s) ||
                           String.eqb (instrumentName p) (s_symbol s)) data with
      | Some p => if negb (netQty p =? 0)%Z then with_position (netQty p) (avgPrice p) s
                  else with_position 0 (avg_price s) s
      | None => with_position 0 (avg_price s) s
      end
  | _, _ => s
  end.
Proof.
  destruct logged; [|reflexivity].
  destruct resp as [[|p rest]|]; try reflexivity.
  unfold sync_position. cbn [negb]. rewrite sync_rows_find.
  destruct (find _ (p :: rest)) as [x|]; [|reflexivity].
  destruct (negb (netQty x =? 0)%Z); reflexivity.
Qed.

(** *** Crash protection of [safe_on_tick] *)

Lemma run_ticks_latch (outs : list bool) (g : TickGuard) :
  is_active g = false -> is_active (run_ticks outs g) = false.
Proof.
  revert g. induction outs as [|o rest IH]; intros g H; [exact H|].
  cbn. apply IH. unfold safe_on_tick. destruct o; [exact H|].
  cbn. destruct (_ <=? _)%Z; [reflexivity|exact H].
Qed.

Lemma block_cons (x : bool) (rest : list bool) :
  (exists l1 l2, x :: rest = l1 ++ repeat false 5 ++ l2) <->
  (exists l2, x :: rest = repeat false 5 ++ l2) \/
  (exists l1 l2, rest = l1 ++ repeat false 5 ++ l2).
Proof.
  split.
  - intros ([|y l1] & l2 & E); [left; exists l2; exact E|].
    right. injection E as _ E. exists l1, l2. exact E.
  - intros [(l2 & E)|(l1 & l2 & E)]; [exists [], l2; exact E|].
    exists (x :: l1), l2. rewrite E. reflexivity.
Qed.

Lemma run_ticks_block (outs : list bool) :
  forall k : nat, (1 <= k <= 5)%nat ->
  is_active (run_ticks outs {| error_count := 5 - Z.of_nat k; is_active := true |}) = false <->
  (exists l2, outs = repeat false k ++ l2) \/ (exists l1 l2, outs = l1 ++ repeat false 5 ++ l2).
Proof.
  induction outs as [|o rest IH]; intros k Hk.
  - cbn [run_ticks is_active]. split; [discriminate|].
    intros [(l2 & E)|(l1 & l2 & E)]; apply (f_equal (@length bool)) in E;
      rewrite ?length_app, repeat_length in E; cbn in E; lia.
  - rewrite block_cons. cbn [run_ticks]. destruct o.
    + unfold safe_on_tick. cbn [is_active].
      change (0%Z) with (5 - Z.of_nat 5)%Z. rewrite (IH 5%nat ltac:(lia)).
      split.
      * intros [(l2 & E)|(l1 & l2 & E)]; right; [right; exists [], l2|right; exists l1, l2]; exact E.
      * intros [(l2 & E)|[(l2 & E)|(l1 & l2 & E)]].
        -- destruct k as [|k]; [lia|]. discriminate E.
        -- discriminate E.
        -- right. exists l1, l2. exact E.
    + unfold safe_on_tick. cbn [is_active error_count].
      destruct (Nat.eq_dec k 1) as [->|Hk1].
      * cbn. split; [intros _; left; exists rest; reflexivity|intros _].
        apply run_ticks_latch. reflexivity.
      * assert (L : (max_errors_before_stop <=? 5 - Z.of_nat k + 1)%Z = false)
          by (unfold max_errors_before_stop; apply Z.leb_gt; lia).
        rewrite L.
        replace (5 - Z.of_nat k + 1)%Z with (5 - Z.of_nat (k - 1))%Z by lia.
        rewrite (IH (k - 1)%nat ltac:(lia)).
        destruct k as [|k]; [lia|]. replace (S k - 1)%nat with k by lia.
        cbn [repeat app].
        split.
        -- intros [(l2 & E)|(l1 & l2 & E)].
           ++ left. exists l2. rewrite E. reflexivity.
           ++ right. right. exists l1, l2. exact E.
        -- intros [(l2 & E)|[(l2 & E)|(l1 & l2 & E)]].
           ++ left. exists l2. injection E as E. exact E.
           ++ left. injection E as E. exists (repeat false (4 - k) ++ l2).
              rewrite app_assoc, <- repeat_app.
              replace (k + (4 - k))%nat with 4%nat by lia. rewrite E. reflexivity.
           ++ right. exists l1, l2. exact E.
Qed.

(** X17: started from no errors and active, a strategy is deactivated by
    [safe_on_tick] exactly when five consecutive [on_tick] calls raise
    (a call that returns resets the count, so errors spread out never
    stop it), and once deactivated it is never re-activated. *)
Theorem X17_five_consecutive_errors_disable (outcomes : list bool) :
  is_active (run_ticks outcomes {| error_count := 0; is_active := true |}) = false <->
  exists l1 l2, outcomes = l1 ++ repeat false 5 ++ l2.
Proof.
  change (0%Z) with (5 - Z.of_nat 5)%Z. rewrite (run_ticks_block outcomes 5 ltac:(lia)).
  split; [intros [(l2 & E)|B]; [exists [], l2; exact E|exact B]|intros B; right; exact B].
Qed.

(** *** Failure counting of the circuit breaker while CLOSED *)

Lemma cb_call_closed (now : Z) (o : Exc unit) (cb : CircuitBreaker) :
  cb_state cb = CLOSED ->
  snd (cb_call now o now cb) =
  match o with
  | Ok _ => cb
  | Raise _ => cb_with (if (failure_threshold cb <=? failure_count cb + 1)%Z then OPEN else CLOSED)
                 (failure_count cb + 1) (Some now) (success_count cb) cb
  end.
Proof.
  intros H. unfold cb_call, call_enter, call_success, call_failure.
  cbv [bind ret get put raise]. rewrite H. cbn.
  destruct o; [rewrite H; reflexivity|].
  rewrite H. reflexivity.
Qed.

Lemma run_calls_app (now : Z) (l1 l2 : list (Exc unit)) (cb : CircuitBreaker) :
  run_calls now (l1 ++ l2) cb = run_calls now l2 (run_calls now l1 cb).
Proof. revert cb. induction l1 as [|o rest IH]; intros cb; [reflexivity|exact (IH _)]. Qed.

Lemma run_calls_closed (now : Z) (outs : list (Exc unit)) :
  forall cb, cb_state cb = CLOSED ->
  (failure_count cb
   + Z.of_nat (length (filter (fun o => match o with Raise _ => true | Ok _ => false end) outs))
   < failure_threshold cb)%Z ->
  cb_state (run_calls now outs cb) = CLOSED /\
  failure_count (run_calls now outs cb) =
    (failure_count cb
     + Z.of_nat (length (filter (fun o => match o with Raise _ => true | Ok _ => false end) outs)))%Z /\
  failure_threshold (run_calls now outs cb) = failure_threshold cb.
Proof.
  induction outs as [|o rest IH]; intros cb Hc Hn.
  - cbn. split; [exact Hc|split; [lia|reflexivity]].
  - cbn [run_calls]. rewrite (cb_call_closed now o cb Hc).
    destruct o as [u|e]; cbn [filter length] in Hn |- *.
    + exact (IH cb Hc Hn).
    + assert (L : (failure_threshold cb <=? failure_count cb + 1)%Z = false)
        by (apply Z.leb_gt; lia).
      rewrite L.
      destruct (IH (cb_with CLOSED (failure_count cb + 1) (Some now) (success_count cb) cb)
                  eq_refl ltac:(cbn; lia)) as (S & F & T).
      split; [exact S|split; [rewrite F; cbn; lia|exact T]].
Qed.

(** X18: while the breaker is CLOSED, successful calls do not reset the
    failure count: after any sequence of calls with [n] failures in all,
    as long as [failure_count + n] stays below the threshold, the breaker
    is still CLOSED with [failure_count + n] failures, and one more
    failure opens it exactly when [failure_count + n + 1] reaches the
    threshold. *)
Theorem X18_closed_failures_accumulate (now : Z) (outs : list (Exc unit)) (cb : CircuitBreaker)
    (Hc : cb_state cb = CLOSED)
    (Hn : (failure_count cb
           + Z.of_nat (length (filter (fun o => match o with Raise _ => true | Ok _ => false end) outs))
           < failure_threshold cb)%Z) :
  cb_state (run_calls now outs cb) = CLOSED /\
  failure_count (run_calls now outs cb) =
    (failure_count cb
     + Z.of_nat (length (filter (fun o => match o with Raise _ => true | Ok _ => false end) outs)))%Z /\
  forall e, cb_state (run_calls now (outs ++ [Raise e]) cb) =
    if (failure_threshold cb <=? failure_count cb
          + Z.of_nat (length (filter (fun o => match o with Raise _ => true | Ok _ => false end) outs))
          + 1)%Z
    then OPEN else CLOSED.
Proof.
  destruct (run_calls_closed now outs cb Hc Hn) as (S & F & T).
  split; [exact S|split; [exact F|intros e]].
  rewrite run_calls_app. cbn [run_calls].
  rewrite (cb_call_closed now (Raise e) _ S). cbn. rewrite F, T. reflexivity.
Qed.

Lemma X18_closed_failures_accumulate_witness :
  let cb := {| cb_state := CLOSED; failure_count := 0; failure_threshold := 3;
               recovery_timeout := 60; last_failure_time := None; success_count := 0 |} in
  let outs := [Raise (PyException "timeout"); Ok tt; Ok tt; Raise (PyException "timeout")] in
  cb_state (run_calls 0 outs cb) = CLOSED /\
  failure_count (run_calls 0 outs cb) = 2%Z /\
  cb_state (run_calls 0 (outs ++ [Raise (PyException "timeout")]) cb) = OPEN.
Proof.
  intros cb outs.
  destruct (X18_closed_failures_accumulate 0 outs cb eq_refl ltac:(vm_compute; reflexivity))
    as (S & F & E).
  split; [exact S|split; [exact F|exact (E (PyException "timeout"))]].
Defined.

(** *** A burst of ticks on the EventBus *)

Lemma run_bus_puts {Tick : Type} (ts : list Tick) :
  forall b : EventBus Tick,
  tick_maxsize Tick b = TICK_QUEUE_SIZE ->
  (length (tick_queue Tick b) <= 1000)%nat ->
  tick_queue Tick (run_bus (map OpPut ts) b) =
    skipn (length (tick_queue Tick b) + length ts - 1000) (tick_queue Tick b ++ ts) /\
  ticks_dropped Tick (run_bus (map OpPut ts) b) =
    (ticks_dropped Tick b + Z.of_nat (length (tick_queue Tick b) + length ts - 1000))%Z.
Proof.
  induction ts as [|t rest IH]; intros b Hm Hl.
  - cbn [run_bus map length]. rewrite app_nil_r.
    replace (length (tick_queue Tick b) + 0 - 1000)%nat with 0%nat by lia.
    split; [reflexivity|cbn; lia].
  - cbn [run_bus map]. rewrite (put_tick_spec b t Hm ltac:(unfold qlen, TICK_QUEUE_SIZE; lia)).
    cbn [snd]. unfold qlen, TICK_QUEUE_SIZE.
    destruct (Z.eqb_spec (Z.of_nat (length (tick_queue Tick b))) 1000) as [E|E].
    + destruct (tick_queue Tick b) as [|x q] eqn:Q; [cbn in E; lia|].
      cbn [tl length] in E |- *.
      destruct (IH (bus_with Tick (q ++ [t]) (ticks_dropped Tick b + 1) b) Hm
                  ltac:(cbn; rewrite length_app; cbn; lia)) as [Tq Td].
      cbn [tick_queue ticks_dropped bus_with] in Tq, Td. rewrite length_app in Tq, Td.
      cbn [length] in Tq, Td.
      replace (length q + 1 + length rest - 1000)%nat with (length rest) in Tq, Td by lia.
      replace (S (length q) + S (length rest) - 1000)%nat with (S (length rest)) by lia.
      split.
      * rewrite Tq, <- app_assoc. reflexivity.
      * rewrite Td. lia.
    + destruct (IH (bus_with Tick (tick_queue Tick b ++ [t]) (ticks_dropped Tick b) b) Hm
                  ltac:(cbn; rewrite length_app; cbn; lia)) as [Tq Td].
      cbn [tick_queue ticks_dropped bus_with] in Tq, Td. rewrite length_app in Tq, Td.
      cbn [length] in Tq, Td |- *.
      replace (length (tick_queue Tick b) + S (length rest))%nat
        with (length (tick_queue Tick b) + 1 + length rest)%nat by lia.
      rewrite <- app_assoc in Tq. split; [exact Tq|exact Td].
Qed.

(** X19: a burst of ticks put on the EventBus's tick queue (maxsize
    1000, at most 1000 ticks queued) leaves exactly the newest 1000 of the
    queued and new ticks, in arrival order, and [ticks_dropped] grows by
    the number of ticks pushed out, [len(queue) + len(burst) - 1000] when
    that is positive and 0 otherwise. *)
Theorem X19_bus_keeps_newest {Tick : Type} (ts : list Tick) (b : EventBus Tick)
    (Hm : tick_maxsize Tick b = TICK_QUEUE_SIZE)
    (Hl : (qlen b <= TICK_QUEUE_SIZE)%Z) :
  tick_queue Tick (run_bus (map OpPut ts) b) =
    skipn (length (tick_queue Tick b) + length ts - 1000) (tick_queue Tick b ++ ts) /\
  ticks_dropped Tick (run_bus (map OpPut ts) b) =
    (ticks_dropped Tick b + Z.of_nat (length (tick_queue Tick b) + length ts - 1000))%Z.
Proof.
  apply (run_bus_puts ts b Hm). unfold qlen, TICK_QUEUE_SIZE in Hl. lia.
Qed.

Lemma X19_bus_keeps_newest_witness :
  tick_queue nat (run_bus (map OpPut (seq 0 1005)) new_bus) = seq 5 1000 /\
  ticks_dropped nat (run_bus (map OpPut (seq 0 1005)) new_bus) = 5%Z.
Proof.
  destruct (X19_bus_keeps_newest (seq 0 1005) new_bus eq_refl
              ltac:(unfold qlen, TICK_QUEUE_SIZE; cbn; lia)) as [Q D].
  rewrite Q, D. split; vm_compute; reflexivity.
Defined.

(** *** Feed messages reaching the DataStream *)

Lemma on_message_step {Tick : Type} (now : Z) (loop : bool) (m : FeedMessage Tick)
    (ds : DataStream Tick) :
  snd (on_message now loop m ds) = ds \/
  (message_ticks m <> [] /\ loop = true /\
   (Z.of_nat (length (ds_tick_queue Tick ds)) < 10000)%Z /\
   snd (on_message now loop m ds) =
     ds_with (ds_tick_queue Tick ds ++ [message_ticks m]) (ds_subscribers Tick ds)).
Proof.
  unfold on_message, publish, STREAM_QUEUE_SIZE. cbn [snd].
  destruct (message_ticks m) as [|x l] eqn:T; [left; reflexivity|].
  destruct loop; [|left; reflexivity]. cbn [negb andb].
  destruct (Z.leb_spec 10000 (Z.of_nat (length (ds_tick_queue Tick ds)))) as [F|F];
    [left; reflexivity|].
  right. split; [discriminate|split; [reflexivity|split; [lia|reflexivity]]].
Qed.

Lemma on_message_room {Tick : Type} (now : Z) (m : FeedMessage Tick) (ds : DataStream Tick) :
  (Z.of_nat (length (ds_tick_queue Tick ds)) < 10000)%Z ->
  snd (on_message now true m ds) =
  match message_ticks m with
  | [] => ds
  | t => ds_with (ds_tick_queue Tick ds ++ [t]) (ds_subscribers Tick ds)
  end.
Proof.
  intros H. unfold on_message, publish, STREAM_QUEUE_SIZE. cbn [snd].
  destruct (message_ticks m) as [|x l]; [reflexivity|]. cbn [negb andb].
  destruct (Z.leb_spec 10000 (Z.of_nat (length (ds_tick_queue Tick ds)))) as [F|F];
    [lia|reflexivity].
Qed.

Lemma feed_messages_invariant {Tick : Type} (now : Z) (loop : bool) (ms : list (FeedMessage Tick)) :
  forall ds : DataStream Tick,
  (Z.of_nat (length (ds_tick_queue Tick ds)) <= 10000)%Z ->
  Forall (fun b => b <> []) (ds_tick_queue Tick ds) ->
  let ds' := fold_left (fun d m => snd (on_message now loop m d)) ms ds in
  (exists extra, ds_tick_queue Tick ds' = ds_tick_queue Tick ds ++ extra /\
                 Forall (fun b => In b (map message_ticks ms)) extra) /\
  (Z.of_nat (length (ds_tick_queue Tick ds')) <= 10000)%Z /\
  Forall (fun b => b <> []) (ds_tick_queue Tick ds') /\
  ds_subscribers Tick ds' = ds_subscribers Tick ds.
Proof.
  induction ms as [|m rest IH]; intros ds Hl Hf; cbv zeta.
  - cbn. split; [exists []; rewrite app_nil_r; split; [reflexivity|constructor]|].
    split; [exact Hl|split; [exact Hf|reflexivity]].
  - cbn [fold_left map].
    destruct (on_message_step now loop m ds) as [E|(Hne & Hloop & Hlt & E)]; rewrite E.
    + destruct (IH ds Hl Hf) as ((extra & Q & I) & L & F & S).
      split; [exists extra; split; [exact Q|]|split; [exact L|split; [exact F|exact S]]].
      eapply Forall_impl; [|exact I]. intros b Hb. right. exact Hb.
    + destruct (IH (ds_with (ds_tick_queue Tick ds ++ [message_ticks m]) (ds_subscribers Tick ds))
                  ltac:(cbn; rewrite length_app; cbn; lia)
                  ltac:(cbn; apply Forall_app; split; [exact Hf|constructor; [exact Hne|constructor]]))
        as ((extra & Q & I) & L & F & S).
      cbn [ds_tick_queue ds_subscribers ds_with] in Q, S.
      split; [exists (message_ticks m :: extra); split|split; [exact L|split; [exact F|exact S]]].
      * rewrite Q, <- app_assoc. reflexivity.
      * constructor; [left; reflexivity|].
        eapply Forall_impl; [|exact I]. intros b Hb. right. exact Hb.
Qed.

Lemma feed_messages_room {Tick : Type} (now : Z) (ms : list (FeedMessage Tick)) :
  forall ds : DataStream Tick,
  (Z.of_nat (length (ds_tick_queue Tick ds)) + Z.of_nat (length ms) <= 10000)%Z ->
  ds_tick_queue Tick (fold_left (fun d m => snd (on_message now true m d)) ms ds) =
  ds_tick_queue Tick ds ++
    filter (fun l => match l with [] => false | _ => true end) (map message_ticks ms).
Proof.
  induction ms as [|m rest IH]; intros ds Hl.
  - cbn. rewrite app_nil_r. reflexivity.
  - cbn [fold_left map filter length] in *.
    rewrite (on_message_room now m ds ltac:(lia)).
    destruct (message_ticks m) as [|x l].
    + apply IH. lia.
    + rewrite IH by (cbn; rewrite length_app; cbn; lia).
      cbn. rewrite <- app_assoc. reflexivity.
Qed.

Lemma feed_messages_closed_loop {Tick : Type} (now : Z) (ms : list (FeedMessage Tick)) :
  forall ds : DataStream Tick,
  fold_left (fun d m => snd (on_message now false m d)) ms ds = ds.
Proof.
  induction ms as [|m rest IH]; intros ds; [reflexivity|].
  cbn [fold_left]. unfold on_message. cbn [snd]. rewrite andb_false_r. apply IH.
Qed.

(** X20: feeding SDK messages to [on_message] only ever appends to the
    stream's tick queue (tail drop: batches already queued are never
    removed), each appended batch is the non-empty tick list of one of
    the messages, the queue stays within 10000 batches, no empty batch
    is queued and the subscribers are untouched; while the event loop is
    not open nothing is published, and when the queue has room for every
    message, all the non-empty tick lists are queued in order. *)
Theorem X20_feed_messages_tail_drop {Tick : Type} (now : Z) (loop : bool)
    (ms : list (FeedMessage Tick)) (ds : DataStream Tick)
    (Hl : (Z.of_nat (length (ds_tick_queue Tick ds)) <= 10000)%Z)
    (Hf : Forall (fun b => b <> []) (ds_tick_queue Tick ds)) :
  let ds' := fold_left (fun d m => snd (on_message now loop m d)) ms ds in
  (exists extra, ds_tick_queue Tick ds' = ds_tick_queue Tick ds ++ extra /\
                 Forall (fun b => In b (map message_ticks ms)) extra) /\
  (Z.of_nat (length (ds_tick_queue Tick ds')) <= 10000)%Z /\
  Forall (fun b => b <> []) (ds_tick_queue Tick ds') /\
  ds_subscribers Tick ds' = ds_subscribers Tick ds /\
  (loop = false -> ds' = ds) /\
  (loop = true -> (Z.of_nat (length (ds_tick_queue Tick ds)) + Z.of_nat (length ms) <= 10000)%Z ->
   ds_tick_queue Tick ds' = ds_tick_queue Tick ds ++
     filter (fun l => match l with [] => false | _ => true end) (map message_ticks ms)).
Proof.
  cbv zeta. destruct (feed_messages_invariant now loop ms ds Hl Hf) as (P & L & F & S).
  split; [exact P|split; [exact L|split; [exact F|split; [exact S|split]]]].
  - intros ->. apply feed_messages_closed_loop.
  - intros -> R. apply feed_messages_room. exact R.
Qed.

Lemma X20_feed_messages_tail_drop_witness :
  let ds := ds_with [[1%nat]] [] in
  let ms := [MsgList [2%nat]; MsgDict None; MsgDict (Some [3%nat; 4%nat]); MsgOther; MsgList []] in
  ds_tick_queue nat (fold_left (fun d m => snd (on_message 0 true m d)) ms ds) =
    [[1%nat]; [2%nat]; [3%nat; 4%nat]].
Proof.
  intros ds ms.
  destruct (X20_feed_messages_tail_drop 0 true ms ds ltac:(cbn; lia)
              ltac:(repeat constructor; discriminate)) as (_ & _ & _ & _ & _ & R).
  rewrite (R eq_refl ltac:(cbn; lia)). reflexivity.
Defined.

(** *** Subscribing to the DataStream and unsubscribing again *)

Lemma assoc_lookup_set {V} (k : string) (v : V) (m : list (string * V)) :
  kw_lookup k (assoc_set k v m) = Some v.
Proof.
  unfold kw_lookup. induction m as [|[k' v'] rest IH]; cbn [assoc_set find fst].
  - rewrite String.eqb_refl. reflexivity.
  - destruct (String.eqb_spec k k') as [->|N]; cbn [find fst].
    + rewrite String.eqb_refl. reflexivity.
    + destruct (String.eqb_spec k' k) as [E|_]; [congruence|exact IH].
Qed.

Lemma assoc_mem_set {V} (k : string) (v : V) (m : list (string * V)) :
  assoc_mem k (assoc_set k v m) = true.
Proof.
  unfold assoc_mem. induction m as [|[k' v'] rest IH]; cbn [assoc_set existsb fst].
  - rewrite String.eqb_refl. reflexivity.
  - destruct (String.eqb k k'); cbn [existsb fst]; rewrite ?String.eqb_refl; [reflexivity|].
    rewrite IH, orb_true_r. reflexivity.
Qed.

Lemma assoc_del_set_fresh {V} (k : string) (v : V) (m : list (string * V)) :
  assoc_mem k m = false -> assoc_del k (assoc_set k v m) = m.
Proof.
  unfold assoc_mem. induction m as [|[k' v'] rest IH]; intros H; cbn [assoc_set assoc_del].
  - rewrite String.eqb_refl. reflexivity.
  - cbn in H. apply orb_false_iff in H as [H1 H2].
    destruct (String.eqb_spec k k') as [->|N]; [rewrite String.eqb_refl in H1; discriminate|].
    cbn [assoc_del]. destruct (String.eqb_spec k k') as [E|_]; [congruence|].
    rewrite (IH H2). reflexivity.
Qed.

Lemma assoc_set_set {V} (k : string) (v1 v2 : V) (m : list (string * V)) :
  assoc_set k v2 (assoc_set k v1 m) = assoc_set k v2 m.
Proof.
  induction m as [|[k' v'] rest IH]; cbn [assoc_set].
  - rewrite String.eqb_refl. reflexivity.
  - destruct (String.eqb_spec k k') as [->|N]; cbn.
    + rewrite String.eqb_refl. reflexivity.
    + destruct (String.eqb_spec k k') as [E|_]; [congruence|]. rewrite IH. reflexivity.
Qed.

Lemma assoc_set_lookup {V} (k : string) (d : V) (m : list (string * V)) :
  kw_lookup k m = Some d -> assoc_set k d m = m.
Proof.
  unfold kw_lookup. induction m as [|[k' v'] rest IH]; cbn [find fst assoc_set]; [discriminate|].
  destruct (String.eqb_spec k' k) as [->|N].
  - intros E. injection E as ->. rewrite String.eqb_refl. reflexivity.
  - intros H. destruct (String.eqb_spec k k') as [E|_]; [congruence|].
    rewrite (IH H). reflexivity.
Qed.

Lemma assoc_mem_lookup {V} (k : string) (m : list (string * V)) :
  assoc_mem k m = false -> kw_lookup k m = None.
Proof.
  unfold assoc_mem, kw_lookup. induction m as [|[k' v'] rest IH]; cbn [find existsb fst];
    [reflexivity|].
  intros H. apply orb_false_iff in H as [H1 H2]. rewrite H1. exact (IH H2).
Qed.

Lemma assoc_lookup_mem {V} (k : string) (d : V) (m : list (string * V)) :
  kw_lookup k m = Some d -> assoc_mem k m = true.
Proof.
  intros H. destruct (assoc_mem k m) eqn:E; [reflexivity|].
  rewrite (assoc_mem_lookup k m E) in H. discriminate.
Qed.

Lemma assoc_lookup_none {V} (k : string) (m : list (string * V)) :
  kw_lookup k m = None -> assoc_mem k m = false.
Proof.
  unfold assoc_mem, kw_lookup. induction m as [|[k' v'] rest IH]; cbn [find existsb fst];
    [reflexivity|].
  destruct (String.eqb k' k); [discriminate|exact IH].
Qed.

(** X21: unsubscribing a subscription right after [subscribe] created
    it gives back the stream as it was, provided the [sub_id] is not
    already subscribed to that token and the token, if present, still
    has some subscriber (as [_unsubscribe] keeps it): a token added by
    the subscription is removed again, and an existing token keeps its
    other subscribers and its place. *)
Theorem X21_subscribe_unsubscribe_round_trip {Tick : Type} (token sub_id : string)
    (ds : DataStream Tick)
    (Hfresh : forall d, kw_lookup token (ds_subscribers Tick ds) = Some d ->
              d <> [] /\ assoc_mem sub_id d = false) :
  ds_unsubscribe token sub_id (ds_subscribe token sub_id ds) = ds.
Proof.
  unfold ds_subscribe, ds_unsubscribe. cbn [ds_subscribers ds_tick_queue ds_with].
  destruct (assoc_mem token (ds_subscribers Tick ds)) eqn:Mt.
  - destruct (kw_lookup token (ds_subscribers Tick ds)) as [d|] eqn:Lt;
      [|rewrite (assoc_lookup_none _ _ Lt) in Mt; discriminate].
    destruct (Hfresh d eq_refl) as [Hne Hm].
    rewrite assoc_lookup_set, assoc_mem_set, (assoc_del_set_fresh _ _ _ Hm), assoc_set_set,
      (assoc_set_lookup _ _ _ Lt).
    destruct d as [|x r]; [congruence|]. destruct ds; reflexivity.
  - rewrite assoc_lookup_set, assoc_lookup_set, assoc_mem_set. cbn.
    rewrite String.eqb_refl. cbn. rewrite !assoc_set_set.
    rewrite (assoc_del_set_fresh _ _ _ Mt). destruct ds; reflexivity.
Qed.

Lemma X21_subscribe_unsubscribe_round_trip_witness :
  let ds := ds_with (Tick := nat) [] [("256265"%string, [("a1"%string, [])])] in
  ds_unsubscribe "256265"%string "b2"%string (ds_subscribe "256265"%string "b2"%string ds) = ds /\
  ds_unsubscribe "738561"%string "b2"%string (ds_subscribe "738561"%string "b2"%string ds) = ds.
Proof.
  intros ds. split.
  - apply X21_subscribe_unsubscribe_round_trip.
    intros d E. cbn in E. injection E as <-. split; [discriminate|reflexivity].
  - apply X21_subscribe_unsubscribe_round_trip.
    intros d E. cbn in E. discriminate.
Defined.

(** *** Reconnect back-off of [MarketFeed.connect] *)

Lemma watchdog_ticks_spec (n : nat) (f : Feed) :
  watchdog_ticks n f = (Ok tt, feed_with (reconnect_delay f) f (repeat (Slept 1) n)).
Proof.
  revert f. induction n as [|k IH]; intros f.
  - unfold feed_with. cbn. rewrite app_nil_r. destruct f; reflexivity.
  - cbn [watchdog_ticks]. unfold bind, feed_sleep, modify. rewrite IH.
    unfold feed_with. cbn. rewrite <- app_assoc. reflexivity.
Qed.

Ltac feed_events_ok :=
  repeat (apply Forall_app; split); try assumption;
  try (apply Forall_forall; intros ev Hev; apply repeat_spec in Hev; subst ev; lia);
  try (repeat constructor; lia).

Lemma feed_round_bounds (r : FeedRound) (f : Feed) :
  (2 <= reconnect_delay f <= 60)%Z ->
  Forall (fun ev => match ev with Slept n => (1 <= n <= 60)%Z
                                | Subscribed d => (2 <= d <= 60)%Z end) (feed_log f) ->
  (2 <= reconnect_delay (snd (feed_round r f)) <= 60)%Z /\
  Forall (fun ev => match ev with Slept n => (1 <= n <= 60)%Z
                                | Subscribed d => (2 <= d <= 60)%Z end)
         (feed_log (snd (feed_round r f))) /\
  exists ev, feed_log (snd (feed_round r f)) = feed_log f ++ ev.
Proof.
  intros Hd Hl. unfold feed_round.
  destruct (negb (paper r) && negb (logged_in r)).
  - cbv [bind ret feed_sleep modify]. unfold feed_with. cbn [snd reconnect_delay feed_log].
    split; [lia|split; [feed_events_ok|eexists; reflexivity]].
  - cbv [try_except bind get ret modify raise].
    destruct (has_tokens f); destruct (watch r) as [n|n]; rewrite watchdog_ticks_spec;
      unfold feed_sleep, modify, feed_with; cbn [snd reconnect_delay feed_log has_tokens];
      (split; [lia|split; [feed_events_ok|eexists; rewrite <- !app_assoc; reflexivity]]).
Qed.

(** X22: however the rounds of the feed's connection loop go (broker not
    logged in, silent sockets raising the zombie error, stop requests),
    starting from a [reconnect_delay] between 2 and 60 seconds it stays
    between 2 and 60, every sleep the loop takes lasts between 1 and 60
    seconds, every resubscription happens with a delay in that range, and
    the loop only adds to what already happened. *)
Theorem X22_connect_backoff_bounds (rounds : list FeedRound) (f : Feed)
    (Hd : (2 <= reconnect_delay f <= 60)%Z)
    (Hl : Forall (fun ev => match ev with Slept n => (1 <= n <= 60)%Z
                                        | Subscribed d => (2 <= d <= 60)%Z end) (feed_log f)) :
  (2 <= reconnect_delay (snd (connect rounds f)) <= 60)%Z /\
  Forall (fun ev => match ev with Slept n => (1 <= n <= 60)%Z
                                | Subscribed d => (2 <= d <= 60)%Z end)
         (feed_log (snd (connect rounds f))) /\
  exists ev, feed_log (snd (connect rounds f)) = feed_log f ++ ev.
Proof.
  revert f Hd Hl. induction rounds as [|r rest IH]; intros f Hd Hl.
  - cbn. split; [exact Hd|split; [exact Hl|exists []; rewrite app_nil_r; reflexivity]].
  - cbn [connect]. unfold bind.
    destruct (feed_round_bounds r f Hd Hl) as (D1 & L1 & ev1 & E1).
    destruct (feed_round r f) as [[go|e] f1]; cbn [snd] in D1, L1, E1.
    + destruct go.
      * destruct (IH f1 D1 L1) as (D2 & L2 & ev2 & E2).
        split; [exact D2|split; [exact L2|exists (ev1 ++ ev2)]].
        rewrite E2, E1, app_assoc. reflexivity.
      * cbn. split; [exact D1|split; [exact L1|exists ev1; exact E1]].
    + cbn. split; [exact D1|split; [exact L1|exists ev1; exact E1]].
Qed.

Lemma X22_connect_backoff_bounds_witness :
  let zombie := {| paper := true; logged_in := true; watch := WatchSilent 3 |} in
  let f := snd (connect [zombie; zombie; zombie; zombie; zombie; zombie] (new_feed true)) in
  (2 <= reconnect_delay f <= 60)%Z /\ reconnect_delay f = 60%Z.
Proof.
  intros zombie f.
  split; [exact (proj1 (X22_connect_backoff_bounds _ (new_feed true)
                          ltac:(cbn; lia) ltac:(constructor)))|].
  vm_compute. reflexivity.
Defined.

(** *** Crash recovery of the sentinel *)

(** X23: [sync_state] with the broker's positions sets [open_trades] to
    the number of positions with a non-zero net quantity, without capping
    it at [max_open_trades], and keeps the day's trade count, PnL, peak
    and configuration; when that number reaches [max_open_trades], every
    following [check_pre_trade] refuses and reserves no slot.  When the
    broker is not logged in or the call fails, nothing changes. *)
Theorem X23_sync_state_recount (qs : list Z) (s : RiskSentinel) (c : ModelsRiskConfig)
    (Hc : config s = RiskModels c) :
  let n := Z.of_nat (length (filter (fun q => negb (q =? 0)%Z) qs)) in
  let s1 := snd (sync_state (Some qs) s) in
  open_trades s1 = n /\ trades_today s1 = trades_today s /\
  current_pnl s1 = current_pnl s /\ peak_equity s1 = peak_equity s /\ config s1 = config s /\
  ((m_max_open_trades c <= n)%Z ->
   forall sym q v, check_pre_trade sym q v s1 = (Ok false, s1)) /\
  sync_state None s = (Ok tt, s).
Proof.
  intros n s1.
  assert (E : s1 = with_counts n (trades_today s) s) by reflexivity.
  rewrite E. cbn [open_trades trades_today current_pnl peak_equity config with_counts].
  split; [reflexivity|split; [reflexivity|split; [reflexivity|split; [reflexivity|split; [reflexivity|split]]]]].
  - intros Hn sym q v. rewrite check_pre_trade_eq. cbn [config open_trades with_counts].
    destruct (cfg_kill_switch_active (config s)); [reflexivity|].
    destruct (Qle_bool _ _); [reflexivity|].
    rewrite Hc. destruct (Z.leb_spec (m_max_open_trades c) n) as [_|N]; [reflexivity|lia].
  - reflexivity.
Qed.

Lemma X23_sync_state_recount_witness :
  let c := {| m_max_daily_loss := 1000; m_max_capital_per_trade := 50000;
              m_max_open_trades := 2; m_max_drawdown_pct := 5 # 100;
              m_kill_switch_active := false |} in
  let s1 := snd (sync_state (Some [25%Z; 0%Z; (-10)%Z; 5%Z]) (RiskSentinel_new (RiskModels c))) in
  open_trades s1 = 3%Z /\ check_pre_trade "REL" 1 100 s1 = (Ok false, s1).
Proof.
  intros c s1.
  destruct (X23_sync_state_recount [25%Z; 0%Z; (-10)%Z; 5%Z] (RiskSentinel_new (RiskModels c)) c
              eq_refl) as (O & _ & _ & _ & _ & R & _).
  split; [exact O|exact (R ltac:(vm_compute; discriminate) "REL"%string 1%Z 100)].
Defined.

(** *** Routing of a batch by [DataStream.consume] *)

Lemma put_or_drop_capped {Tick : Type} (m : Z) (t : Tick) (q l : list Tick) :
  put_or_drop m t (capped m q l) = capped m q (l ++ [t]).
Proof.
  unfold put_or_drop, capped.
  destruct (Z.ltb_spec 0 m) as [P|P]; cbn [andb].
  - rewrite firstn_app, length_app, length_firstn, app_assoc.
    destruct (Z.leb_spec m (Z.of_nat (length q + Nat.min (Z.to_nat m - length q) (length l))))
      as [F|F].
    + replace (Z.to_nat m - length q - length l)%nat with 0%nat by lia.
      rewrite app_nil_r. reflexivity.
    + replace (Z.to_nat m - length q - length l)%nat
        with (S (Z.to_nat m - length q - length l - 1)) by lia.
      cbn [firstn]. rewrite firstn_nil. reflexivity.
  - rewrite app_assoc. reflexivity.
Qed.

Lemma capped_nil {Tick : Type} (m : Z) (q : list Tick) : capped m q [] = q.
Proof. unfold capped. destruct (0 <? m)%Z; rewrite ?firstn_nil; apply app_nil_r. Qed.

Lemma assoc_lookup_set_other {V} (k k' : string) (v : V) (m : list (string * V)) :
  k <> k' -> kw_lookup k' (assoc_set k v m) = kw_lookup k' m.
Proof.
  intros N. unfold kw_lookup. induction m as [|[k1 v1] rest IH]; cbn [assoc_set find fst].
  - destruct (String.eqb_spec k k') as [E|_]; [congruence|reflexivity].
  - destruct (String.eqb_spec k k1) as [->|N1]; cbn [find fst].
    + destruct (String.eqb_spec k1 k') as [E|_]; [congruence|reflexivity].
    + destruct (String.eqb k1 k'); [reflexivity|exact IH].
Qed.

Lemma assoc_set_keys {V} (k : string) (v d : V) (m : list (string * V)) :
  kw_lookup k m = Some d -> map fst (assoc_set k v m) = map fst m.
Proof.
  unfold kw_lookup. induction m as [|[k1 v1] rest IH]; cbn [find fst]; [discriminate|].
  cbn [assoc_set]. destruct (String.eqb_spec k1 k) as [->|N].
  - rewrite String.eqb_refl. reflexivity.
  - intros H. destruct (String.eqb_spec k k1) as [E|_]; [congruence|].
    cbn [map fst]. rewrite (IH H). reflexivity.
Qed.

Lemma consume_fold {Tick : Type} (tk : Tick -> string) (ticks : list Tick) :
  forall subs gl,
  let r := fold_left (fun acc tick => route_tick tk tick (fst acc) (snd acc)) ticks (subs, gl) in
  map fst (fst r) = map fst subs /\
  (forall token, kw_lookup token (fst r) =
     option_map (map (fun p => (fst p, capped SUB_QUEUE_SIZE (snd p)
                                         (filter (fun t => String.eqb (tk t) token) ticks))))
                (kw_lookup token subs)) /\
  snd r = map (fun g => (fst g, (fst (snd g), capped (fst (snd g)) (snd (snd g)) ticks))) gl.
Proof.
  induction ticks as [|t l IH] using rev_ind; intros subs gl; cbv zeta.
  - cbn [fold_left fst snd filter]. split; [reflexivity|split].
    + intros token. destruct (kw_lookup token subs) as [d|]; [|reflexivity]. cbn [option_map].
      f_equal. rewrite <- (map_id d) at 1. apply map_ext. intros [a q]. rewrite capped_nil. reflexivity.
    + rewrite <- (map_id gl) at 1. apply map_ext. intros [a [m q]]. rewrite capped_nil. reflexivity.
  - rewrite fold_left_app. cbn [fold_left].
    destruct (IH subs gl) as (K & L & G). cbv zeta in K, L, G.
    set (r := fold_left _ l (subs, gl)) in *.
    unfold route_tick. cbn [fst snd].
    split; [|split].
    + destruct (kw_lookup (tk t) (fst r)) as [d|] eqn:E; [|exact K].
      rewrite (assoc_set_keys _ _ _ _ E). exact K.
    + intros token. rewrite filter_app. cbn [filter].
      destruct (String.eqb_spec (tk t) token) as [<-|N].
      * rewrite L. destruct (kw_lookup (tk t) subs) as [d|] eqn:E.
        -- cbn [option_map]. rewrite assoc_lookup_set. rewrite map_map. cbn [fst snd].
           f_equal. apply map_ext. intros [a q]. cbn [fst snd]. rewrite put_or_drop_capped. reflexivity.
        -- cbn [option_map]. rewrite L, E. reflexivity.
      * rewrite app_nil_r.
        destruct (kw_lookup (tk t) (fst r)) as [d|]; [|exact (L token)].
        rewrite (assoc_lookup_set_other _ _ _ _ N). exact (L token).
    + rewrite G, map_map. apply map_ext. intros [a [m q]]. cbn [fst snd].
      rewrite put_or_drop_capped. reflexivity.
Qed.

(** X24: one pass of [consume] takes the oldest batch off the stream's
    tick queue and routes it: every subscriber queue of a token receives,
    in order, the ticks of the batch whose [tk] is that token, up to the
    queue's size of 1000 (later ones are dropped); no token gains or
    loses subscribers and tokens without subscribers get nothing; every
    global listener receives the whole batch, up to its queue's size when
    that is bounded.  With an empty tick queue the loop waits. *)
Theorem X24_consume_routes_by_token {Tick : Type} (tk : Tick -> string) (ds : DataStream Tick)
    (gl : GlobalListeners Tick) :
  match ds_tick_queue Tick ds with
  | [] => consume_step tk ds gl = None
  | ticks :: rest =>
      exists ds' gl', consume_step tk ds gl = Some (ds', gl') /\
      ds_tick_queue Tick ds' = rest /\
      map fst (ds_subscribers Tick ds') = map fst (ds_subscribers Tick ds) /\
      (forall token, kw_lookup token (ds_subscribers Tick ds') =
         option_map (map (fun p => (fst p, capped SUB_QUEUE_SIZE (snd p)
                                             (filter (fun t => String.eqb (tk t) token) ticks))))
                    (kw_lookup token (ds_subscribers Tick ds))) /\
      gl' = map (fun g => (fst g, (fst (snd g), capped (fst (snd g)) (snd (snd g)) ticks))) gl
  end.
Proof.
  unfold consume_step. destruct (ds_tick_queue Tick ds) as [|ticks rest]; [reflexivity|].
  destruct (consume_fold tk ticks (ds_subscribers Tick ds) gl) as (K & L & G).
  eexists; eexists; split; [reflexivity|].
  split; [reflexivity|split; [exact K|split; [exact L|exact G]]].
Qed.
